(** * Solar-Logger: the backup reader of [src/classes/backup_classes.py]

    A shallow embedding of [BackupReader] (the streaming parser of a
    PostgreSQL text dump) and of the Python primitives it is built on,
    followed by the properties of the parser and of the bounded queue that
    sits behind it. *)

From Stdlib Require Import ZArith List String Ascii Bool Lia.
From Stdlib Require Strings.Byte.
From stdpp Require Import base option list gmap strings.
Import ListNotations.

Local Open Scope string_scope.
Local Open Scope list_scope.

(** ** Python [str] primitives

    A Python [str] is a Rocq [string]; after [.decode("ascii")] every
    character is below 128, so the 8-bit [ascii] loses nothing. *)

Module PyStr.

Definition code (c : ascii) : N := N_of_ascii c.

(** [str.isspace] restricted to ASCII: TAB, LF, VT, FF, CR, FS, GS, RS,
    US and SPACE.  This is the set removed by [str.strip()] and matched
    by [\s] in a [str] pattern. *)
Definition isspace (c : ascii) : bool :=
  let n := code c in
  ((9 <=? n) && (n <=? 13) || (28 <=? n) && (n <=? 32))%N.

(** The interpreter's [Py_ISSPACE]: the C locale's white space, used by
    [int()] and [bytearray.fromhex]. *)
Definition c_isspace (c : ascii) : bool :=
  let n := code c in
  ((9 <=? n) && (n <=? 13) || (n =? 32))%N.

Definition isdigit (c : ascii) : bool :=
  let n := code c in ((48 <=? n) && (n <=? 57))%N.

Definition digit_value (c : ascii) : N := (code c - 48)%N.

(** [\w] on ASCII text: letters, digits and the underscore. *)
Definition isword (c : ascii) : bool :=
  let n := code c in
  ((48 <=? n) && (n <=? 57) || (65 <=? n) && (n <=? 90)
   || (97 <=? n) && (n <=? 122) || (n =? 95))%N.

Fixpoint lstrip (s : string) : string :=
  match s with
  | EmptyString => EmptyString
  | String c r => if isspace c then lstrip r else s
  end.

Fixpoint rstrip (s : string) : string :=
  match s with
  | EmptyString => EmptyString
  | String c r =>
      match rstrip r with
      | EmptyString => if isspace c then EmptyString else String c EmptyString
      | r' => String c r'
      end
  end.

(** [s.strip()] *)
Definition strip (s : string) : string := rstrip (lstrip s).

(** [s.split(sep)] for a one-character separator: never empty, and the
    empty string splits into one empty field. *)
Fixpoint split (sep : ascii) (s : string) : list string :=
  match s with
  | EmptyString => [EmptyString]
  | String c r =>
      if Ascii.eqb c sep then EmptyString :: split sep r
      else match split sep r with
           | h :: t => String c h :: t
           | [] => [String c EmptyString]
           end
  end.

(** [s.replace(c, "")] for a one-character [c]. *)
Fixpoint remove_char (x : ascii) (s : string) : string :=
  match s with
  | EmptyString => EmptyString
  | String c r =>
      if Ascii.eqb c x then remove_char x r else String c (remove_char x r)
  end.

(** [s.startswith(p)] *)
Definition startswith (p s : string) : bool := String.prefix p s.

(** [s[n:]] *)
Fixpoint slice_from (n : nat) (s : string) : string :=
  match n, s with
  | O, _ => s
  | S n', String _ r => slice_from n' r
  | S _, EmptyString => EmptyString
  end.

(** [sep.join(l)] *)
Fixpoint join (sep : string) (l : list string) : string :=
  match l with
  | [] => EmptyString
  | [x] => x
  | x :: r => x +:+ sep +:+ join sep r
  end.

(** The longest prefix whose characters satisfy [p], and the rest. *)
Fixpoint span (p : ascii -> bool) (s : string) : string * string :=
  match s with
  | EmptyString => (EmptyString, EmptyString)
  | String c r =>
      if p c then let '(a, b) := span p r in (String c a, b)
      else (EmptyString, s)
  end.

(** [s] without the prefix [p], when it has it. *)
Fixpoint strip_prefix (p s : string) : option string :=
  match p, s with
  | EmptyString, _ => Some s
  | String a p', String b s' =>
      if Ascii.eqb a b then strip_prefix p' s' else None
  | String _ _, EmptyString => None
  end.

(** The text before the last occurrence of [x] in [s], if [x] occurs. *)
Fixpoint before_last (x : ascii) (s : string) : option string :=
  match s with
  | EmptyString => None
  | String c r =>
      match before_last x r with
      | Some t => Some (String c t)
      | None => if Ascii.eqb c x then Some EmptyString else None
      end
  end.

(** [bytes.decode("ascii")] succeeds exactly on 7-bit text. *)
Fixpoint is_ascii (s : string) : bool :=
  match s with
  | EmptyString => true
  | String c r => (code c <? 128)%N && is_ascii r
  end.

End PyStr.

(** ** Exceptions

    The exceptions the reader can meet.  [DecoderError] stands for whatever
    a payload decoder of [PyMateDecoder] raises on a packet it rejects. *)

Inductive exn : Type :=
| IndexError
| TypeError
| ValueError
| KeyError (key : string)
| OverflowError
| UnicodeDecodeError
| DecoderError.

Inductive result (A : Type) : Type :=
| Ok (a : A)
| Raise (e : exn).
Arguments Ok {A} a.
Arguments Raise {A} e.

Definition of_option {A} (e : exn) (o : option A) : result A :=
  match o with
  | Some a => Ok a
  | None => Raise e
  end.

(** ** [int(s)] on ASCII text *)

Module PyInt.
Import PyStr.

Fixpoint c_lstrip (s : string) : string :=
  match s with
  | EmptyString => EmptyString
  | String c r => if c_isspace c then c_lstrip r else s
  end.

Fixpoint c_rstrip (s : string) : string :=
  match s with
  | EmptyString => EmptyString
  | String c r =>
      match c_rstrip r with
      | EmptyString => if c_isspace c then EmptyString else String c EmptyString
      | r' => String c r'
      end
  end.

(** Digits with single underscores between them; [prev_us] records that
    the previous character was an underscore. *)
Fixpoint digits_from (acc : Z) (prev_us : bool) (s : string) : option Z :=
  match s with
  | EmptyString => if prev_us then None else Some acc
  | String c r =>
      if isdigit c then
        digits_from (10 * acc + Z.of_N (digit_value c)) false r
      else if Ascii.eqb c "_" then
        (if prev_us then None else digits_from acc true r)
      else None
  end.

Definition digits (s : string) : option Z :=
  match s with
  | EmptyString => None
  | String c r =>
      if isdigit c then digits_from (Z.of_N (digit_value c)) false r else None
  end.

(** [int(s)]: surrounding white space, an optional sign, then decimal
    digits, which may be separated by single underscores; anything else is
    a [ValueError].  Leading zeros are accepted. *)
Definition int (s : string) : result Z :=
  let t := c_rstrip (c_lstrip s) in
  match t with
  | String "-" r => of_option ValueError (Z.opp <$> digits r)
  | String "+" r => of_option ValueError (digits r)
  | _ => of_option ValueError (digits t)
  end.

End PyInt.

(** ** [bytearray.fromhex] *)

Module PyHex.
Import PyStr.

Abbreviation bytes := (list Byte.byte).

(** The value of a hexadecimal digit, either case. *)
Definition hexval (c : ascii) : option N :=
  let n := code c in
  if ((48 <=? n) && (n <=? 57))%N then Some (n - 48)%N
  else if ((65 <=? n) && (n <=? 70))%N then Some (n - 55)%N
  else if ((97 <=? n) && (n <=? 102))%N then Some (n - 87)%N
  else None.

Definition byte_of_nibbles (top bot : N) : Byte.byte :=
  byte_of_ascii (ascii_of_N (16 * top + bot)).

(** Two digits per byte; white space is skipped between bytes, never
    inside one; a digit left alone at the end, or any other character,
    makes the text invalid. *)
Fixpoint fromhex_opt (s : string) : option bytes :=
  match s with
  | EmptyString => Some []
  | String c r =>
      if c_isspace c then fromhex_opt r
      else
        match hexval c, r with
        | Some top, String d r' =>
            match hexval d with
            | Some bot => cons (byte_of_nibbles top bot) <$> fromhex_opt r'
            | None => None
            end
        | _, _ => None
        end
  end.

Definition fromhex (s : string) : result bytes :=
  of_option ValueError (fromhex_opt s).

End PyHex.

(** ** [datetime], [strptime] and fixed offsets *)

Module PyTime.
Import PyStr.

(** A [datetime]: the calendar fields as written, and the attached
    [tzinfo], here always a fixed offset in seconds ([None]: naive). *)
Record datetime : Type := mkDatetime {
  year : Z; month : Z; day : Z;
  hour : Z; minute : Z; second : Z; microsecond : Z;
  tzinfo : option Z
}.

(** [dt.replace(tzinfo=tz)]: the calendar fields are kept as they are. *)
Definition replace_tzinfo (dt : datetime) (tz : option Z) : datetime :=
  mkDatetime (year dt) (month dt) (day dt)
             (hour dt) (minute dt) (second dt) (microsecond dt) tz.

Definition is_leap (y : Z) : bool :=
  ((y mod 4 =? 0) && negb (y mod 100 =? 0) || (y mod 400 =? 0))%Z.

Definition days_in_month (y m : Z) : Z :=
  if (m =? 2)%Z then (if is_leap y then 29 else 28)%Z
  else if ((m =? 4) || (m =? 6) || (m =? 9) || (m =? 11))%Z then 30%Z
  else 31%Z.

(** The checks of the [datetime] constructor. *)
Definition valid_fields (y m d hh mm ss us : Z) : bool :=
  ((1 <=? y) && (y <=? 9999) && (1 <=? m) && (m <=? 12)
   && (1 <=? d) && (d <=? days_in_month y m)
   && (0 <=? hh) && (hh <=? 23) && (0 <=? mm) && (mm <=? 59)
   && (0 <=? ss) && (ss <=? 59) && (0 <=? us) && (us <=? 999999))%Z.

(** *** The regular expressions of [_strptime]

    [strptime] turns the format into a regular expression and matches it
    with a backtracking engine.  A directive is a function from the text
    to the list of its possible matches, in the engine's order of
    preference; the first element of the list for the whole expression is
    the match the engine returns. *)

Definition parser (A : Type) : Type := string -> list (A * string).

Definition p_ret {A} (a : A) : parser A := fun s => [(a, s)].

Definition p_bind {A B} (p : parser A) (k : A -> parser B) : parser B :=
  fun s => concat (map (fun '(a, r) => k a r) (p s)).

Definition p_alt {A} (p q : parser A) : parser A := fun s => p s ++ q s.

Definition p_alts {A} (ps : list (parser A)) : parser A :=
  fold_right p_alt (fun _ => []) ps.

Definition p_lit (c : ascii) : parser unit :=
  fun s =>
    match s with
    | String d r => if Ascii.eqb c d then [(tt, r)] else []
    | EmptyString => []
    end.

(** One digit between [lo] and [hi]. *)
Definition p_digit (lo hi : N) : parser Z :=
  fun s =>
    match s with
    | String d r =>
        if isdigit d && (lo <=? digit_value d)%N && (digit_value d <=? hi)%N
        then [(Z.of_N (digit_value d), r)] else []
    | EmptyString => []
    end.

Definition p_two (lo1 hi1 lo2 hi2 : N) : parser Z :=
  p_bind (p_digit lo1 hi1) (fun a =>
  p_bind (p_digit lo2 hi2) (fun b => p_ret (10 * a + b)%Z)).

(** Exactly [n] digits, read as a decimal number. *)
Fixpoint p_digits (n : nat) (acc : Z) : parser Z :=
  match n with
  | O => p_ret acc
  | S n' => p_bind (p_digit 0 9) (fun d => p_digits n' (10 * acc + d)%Z)
  end.

(** [\s*], greedy: the longest run first. *)
Fixpoint p_ws_star (s : string) : list (unit * string) :=
  match s with
  | EmptyString => [(tt, s)]
  | String c r => if isspace c then p_ws_star r ++ [(tt, s)] else [(tt, s)]
  end.

(** [\s+], which stands for the blank of the format. *)
Definition p_ws_plus : parser unit :=
  fun s =>
    match s with
    | String c r => if isspace c then p_ws_star r else []
    | EmptyString => []
    end.

(** [%Y]: [\d\d\d\d] *)
Definition p_Y : parser Z := p_digits 4 0.
(** [%m]: [1[0-2]|0[1-9]|[1-9]] *)
Definition p_m : parser Z :=
  p_alts [p_two 1 1 0 2; p_two 0 0 1 9; p_digit 1 9].
(** [%d]: [3[01]|[12]\d|0[1-9]|[1-9]| [1-9]] *)
Definition p_d : parser Z :=
  p_alts [p_two 3 3 0 1; p_two 1 2 0 9; p_two 0 0 1 9; p_digit 1 9;
          p_bind (p_lit " ") (fun _ => p_digit 1 9)].
(** [%H]: [2[0-3]|[0-1]\d|\d] *)
Definition p_H : parser Z :=
  p_alts [p_two 2 2 0 3; p_two 0 1 0 9; p_digit 0 9].
(** [%M]: [[0-5]\d|\d] *)
Definition p_M : parser Z := p_alts [p_two 0 5 0 9; p_digit 0 9].
(** [%S]: [6[0-1]|[0-5]\d|\d] *)
Definition p_S : parser Z :=
  p_alts [p_two 6 6 0 1; p_two 0 5 0 9; p_digit 0 9].
(** [%f]: [[0-9]{1,6}], greedy; the digits are padded on the right to
    six, so [k] digits count in units of [10^(6-k)] microseconds. *)
Definition p_f : parser Z :=
  p_alts (map (fun k => p_bind (p_digits k 0)
                          (fun v => p_ret (v * 10 ^ Z.of_nat (6 - k))%Z))
              [6; 5; 4; 3; 2; 1]%nat).

(** [%Y-%m-%d %H:%M:%S] up to the seconds. *)
Definition p_seconds : parser (Z * Z * Z * Z * Z * Z) :=
  p_bind p_Y (fun y => p_bind (p_lit "-") (fun _ =>
  p_bind p_m (fun m => p_bind (p_lit "-") (fun _ =>
  p_bind p_d (fun d => p_bind p_ws_plus (fun _ =>
  p_bind p_H (fun hh => p_bind (p_lit ":") (fun _ =>
  p_bind p_M (fun mm => p_bind (p_lit ":") (fun _ =>
  p_bind p_S (fun ss => p_ret (y, m, d, hh, mm, ss)))))))))))).

Inductive format : Type :=
| fmt_micro   (** ["%Y-%m-%d %H:%M:%S.%f"] *)
| fmt_seconds (** ["%Y-%m-%d %H:%M:%S"] *).

Definition p_format (f : format) : parser (Z * Z * Z * Z * Z * Z * Z) :=
  match f with
  | fmt_micro =>
      p_bind p_seconds (fun t => p_bind (p_lit ".") (fun _ =>
      p_bind p_f (fun us => p_ret (t, us))))
  | fmt_seconds => p_bind p_seconds (fun t => p_ret (t, 0%Z))
  end.

(** [datetime.strptime(s, f)]: the first match of the expression; text
    left over after it ("unconverted data remains"), no match at all, or
    fields that are no date all raise [ValueError]. *)
Definition strptime (s : string) (f : format) : result datetime :=
  match p_format f s with
  | ((y, m, d, hh, mm, ss, us), EmptyString) :: _ =>
      if valid_fields y m d hh mm ss us
      then Ok (mkDatetime y m d hh mm ss us None)
      else Raise ValueError
  | _ => Raise ValueError
  end.

(** [timedelta(seconds=n)]: the number of whole days must stay within
    999999999 in magnitude. *)
Definition timedelta_seconds (n : Z) : result Z :=
  if ((-999999999 <=? n / 86400) && (n / 86400 <=? 999999999))%Z
  then Ok n else Raise OverflowError.

(** [tz.tzoffset("", delta)]: a zone that is nothing but its offset. *)
Definition tzoffset (delta : Z) : option Z := Some delta.

(** [str(dt)] asks the zone for its offset, which must lie strictly
    within a day either way. *)
Definition printable (dt : datetime) : bool :=
  match tzinfo dt with
  | None => true
  | Some off => ((-86400 <? off) && (off <? 86400))%Z
  end.

End PyTime.

(** ** The table-start pattern *)

Module PyRe.
Import PyStr.

Definition newline : ascii := ascii_of_N 10.

(** [re.match] of the table-start pattern on ASCII text, as the pair of
    its two groups.  The pattern is: the word COPY and a blank; one or
    more word characters (group 1); a blank and an opening parenthesis;
    any characters but a line break, as many as possible (group 2); a
    closing parenthesis.  Group 1 is followed by a blank, which is no
    word character, so only the longest run of word characters can
    match; group 2 is greedy, so the closing parenthesis is the last one
    before a line break. *)
Definition match_copy (line : string) : option (string * string) :=
  rest ← strip_prefix "COPY " line;
  let '(name, rest1) := span isword rest in
  match name with
  | EmptyString => None
  | String _ _ =>
      rest2 ← strip_prefix " (" rest1;
      let '(seg, _) := span (fun c => negb (Ascii.eqb c newline)) rest2 in
      cols ← before_last ")" seg;
      Some (name, cols)
  end.

End PyRe.

(** ** Collaborators of the reader

    [PyMateDecoder] and [MqttTopics] live in [src/classes/mqtt_classes.py];
    the reader only calls the three decoders and reads the measurement
    names, so they are taken as parameters. *)

Record PyMateDecoder (Payload : Type) : Type := mkPyMateDecoder {
  dc_decoder : PyHex.bytes -> result Payload;
  mx_decoder : PyHex.bytes -> result Payload;
  fx_decoder : PyHex.bytes -> result Payload
}.
Arguments dc_decoder {Payload} _ _.
Arguments mx_decoder {Payload} _ _.
Arguments fx_decoder {Payload} _ _.

Record MqttTopics : Type := mkMqttTopics {
  dc_name : string;
  fx_name : string;
  mx_name : string
}.

Definition LOG_INTERVAL_QUEUE : Z := 50.
Definition LOG_INTERVAL_TABLE : Z := 100000.

(** ** What the reader does to the outside

    Every [logging.info] call, by the message it formats, and every call of
    [MqttConnector.load_queue], with its four keyword arguments. *)

Inductive log_record : Type :=
| LogStartTable (table_name : option string)  (** [Start of table {name}] *)
| LogEndTable (table_name : option string)    (** [End of table {name}] *)
| LogReadLines (n : Z) (timestamp : PyTime.datetime)
                                              (** [Read {n} lines \t{timestamp}] *)
| LogReadRows (n : Z)                         (** [Read {n} rows\n] *)
| LogBeginTable (table_name : option string)  (** [Begin table "{name}"] *)
| LogColumns (columns : string)               (** [Columns: {...}] *)
| LogSkippingTable (err : exn)                (** [Skipping table - missing ...] *)
| LogEndOfBackup.                             (** [End of backup] *)

Inductive event (Payload : Type) : Type :=
| Log (r : log_record)
| LoadQueue (measurement : string) (time_field : PyTime.datetime)
            (payload : Payload) (log : bool).
Arguments Log {Payload} r.
Arguments LoadQueue {Payload} measurement time_field payload log.

Definition is_load_queue {Payload} (e : event Payload) : bool :=
  match e with
  | LoadQueue _ _ _ _ => true
  | Log _ => false
  end.

(** ** The reader's fields *)

Record BackupReader : Type := mkBackupReader {
  g_col_raw : option nat;
  g_col_timestamp : option nat;
  g_col_tzoffset : option nat;
  g_lines_read : Z;
  g_read_rows : bool;
  g_table_name : option string
}.

(** [BackupReader.__init__] *)
Definition init : BackupReader :=
  mkBackupReader None None None 0 false None.

Definition set_col_raw (v : option nat) (r : BackupReader) : BackupReader :=
  mkBackupReader v (g_col_timestamp r) (g_col_tzoffset r)
                 (g_lines_read r) (g_read_rows r) (g_table_name r).
Definition set_col_timestamp (v : option nat) (r : BackupReader) : BackupReader :=
  mkBackupReader (g_col_raw r) v (g_col_tzoffset r)
                 (g_lines_read r) (g_read_rows r) (g_table_name r).
Definition set_col_tzoffset (v : option nat) (r : BackupReader) : BackupReader :=
  mkBackupReader (g_col_raw r) (g_col_timestamp r) v
                 (g_lines_read r) (g_read_rows r) (g_table_name r).
Definition set_lines_read (v : Z) (r : BackupReader) : BackupReader :=
  mkBackupReader (g_col_raw r) (g_col_timestamp r) (g_col_tzoffset r)
                 v (g_read_rows r) (g_table_name r).
Definition set_read_rows (v : bool) (r : BackupReader) : BackupReader :=
  mkBackupReader (g_col_raw r) (g_col_timestamp r) (g_col_tzoffset r)
                 (g_lines_read r) v (g_table_name r).
Definition set_table_name (v : option string) (r : BackupReader) : BackupReader :=
  mkBackupReader (g_col_raw r) (g_col_timestamp r) (g_col_tzoffset r)
                 (g_lines_read r) (g_read_rows r) v.

(** ** The monad of a method call

    A method reads and updates the reader's fields, appends to the trace of
    events, and returns or raises.  A raise keeps the fields and the trace
    as they were when it happened, as in Python. *)

Record outcome (E A : Type) : Type := mkOutcome {
  value : result A;
  after : BackupReader;
  trace : list E
}.
Arguments mkOutcome {E A} value after trace.
Arguments value {E A} _.
Arguments after {E A} _.
Arguments trace {E A} _.

Definition M (E A : Type) : Type := BackupReader -> outcome E A.

Definition ret {E A} (a : A) : M E A := fun st => mkOutcome (Ok a) st [].

Definition raise {E A} (e : exn) : M E A := fun st => mkOutcome (Raise e) st [].

Definition bind {E A B} (m : M E A) (k : A -> M E B) : M E B :=
  fun st =>
    let r := m st in
    match value r with
    | Ok a => let r' := k a (after r) in
              mkOutcome (value r') (after r') (trace r ++ trace r')
    | Raise e => mkOutcome (Raise e) (after r) (trace r)
    end.

(** [try: m except Exception as err: h err] *)
Definition try_except {E A} (m : M E A) (h : exn -> M E A) : M E A :=
  fun st =>
    let r := m st in
    match value r with
    | Ok a => r
    | Raise e => let r' := h e (after r) in
                 mkOutcome (value r') (after r') (trace r ++ trace r')
    end.

Definition lift {E A} (r : result A) : M E A :=
  fun st => mkOutcome r st [].

Definition get {E A} (f : BackupReader -> A) : M E A :=
  fun st => mkOutcome (Ok (f st)) st [].

Definition modify {E} (f : BackupReader -> BackupReader) : M E unit :=
  fun st => mkOutcome (Ok tt) (f st) [].

Definition emit {E} (e : E) : M E unit :=
  fun st => mkOutcome (Ok tt) st [e].

Declare Scope reader_scope.
Delimit Scope reader_scope with reader.
Notation "'let*' x ':=' m 'in' k" := (bind m (fun x => k))
  (at level 10, x name, m at level 99, k at level 200) : reader_scope.
Notation "m ';;' k" := (bind m (fun _ => k))
  (at level 100, k at level 200) : reader_scope.

(** ** [BackupReader] *)

Inductive signal : Type :=
| Next   (** go on with the next line *)
| Break. (** leave the loop *)

Inductive ending : Type :=
| Exhausted          (** the file had no more lines *)
| Completed          (** the loop was left at the end-of-backup line *)
| Aborted (e : exn). (** an exception left [read_compressed_xz] *)

(** A whole run: how it ended, the lines that were never read, the fields
    at the end and everything logged or queued on the way. *)
Record run (E : Type) : Type := mkRun {
  stop : ending;
  unread : list string;
  final : BackupReader;
  events : list E
}.
Arguments mkRun {E} stop unread final events.
Arguments stop {E} _.
Arguments unread {E} _.
Arguments final {E} _.
Arguments events {E} _.

Definition tab : ascii := ascii_of_N 9.
Definition quote : ascii := ascii_of_N 34.

(** [cells[i]]: [None] is no index, and an index past the end raises. *)
Definition getitem (cells : list string) (i : option nat) : result string :=
  match i with
  | None => Raise TypeError
  | Some n => of_option IndexError (cells !! n)
  end.

(** [enumerate(l)], counting from [i]. *)
Fixpoint enumerate_from (i : nat) (l : list string) : list (nat * string) :=
  match l with
  | [] => []
  | k :: r => (i, k) :: enumerate_from (S i) r
  end.

(** [{k: i for i, k in enumerate(g_columns)}]: built left to right, a
    later column of the same name replaces the earlier one. *)
Definition columns_map (g_columns : list string) : gmap string nat :=
  fold_left (fun m '(i, k) => <[k := i]> m) (enumerate_from 0 g_columns) ∅.

(** [d[k]] *)
Definition dict_getitem (d : gmap string nat) (k : string) : result nat :=
  of_option (KeyError k) (d !! k).

(** The column names of a table-start line: split at the commas, double
    quotes removed, then stripped. *)
Definition column_tokens (cols : string) : list string :=
  map (fun c => PyStr.strip (PyStr.remove_char quote c)) (PyStr.split "," cols).

(** The two [strptime] calls of [_extract_column_in]. *)
Definition parse_timestamp (timestamp : string) : result PyTime.datetime :=
  match PyTime.strptime timestamp PyTime.fmt_micro with
  | Ok d => Ok d
  | Raise ValueError => PyTime.strptime timestamp PyTime.fmt_seconds
  | Raise e => Raise e
  end.

(** [line_raw.decode("ascii")] *)
Definition decode_ascii (line_raw : string) : result string :=
  if PyStr.is_ascii line_raw then Ok line_raw else Raise UnicodeDecodeError.

Definition table_is (table_name : option string) (s : string) : bool :=
  match table_name with
  | Some n => String.eqb n s
  | None => false
  end.

Section Reader.
Context {Payload : Type}.
Variable decoder : PyMateDecoder Payload.
Variable topics : MqttTopics.

Local Open Scope reader_scope.
Local Abbreviation R := (M (event Payload)).

Definition _start_table (table_name : option string) : R unit :=
  emit (Log (LogStartTable table_name)).

(** [MqttConnector.load_queue(...)]: the call is recorded. *)
Definition load_queue (measurement : string) (time_field : PyTime.datetime)
           (payload : Payload) (log : bool) : R unit :=
  emit (LoadQueue measurement time_field payload log).

Definition _column_in (table_name : option string) (row_num : Z)
           (timestamp : PyTime.datetime) (raw_packet : PyHex.bytes) : R unit :=
  if table_is table_name "dc_status" then
    let* dc_payload := lift (dc_decoder decoder raw_packet) in
    load_queue (dc_name topics) timestamp dc_payload
               (row_num mod LOG_INTERVAL_QUEUE =? 0)%Z
  else if table_is table_name "mx_status" then
    let* mx_payload := lift (mx_decoder decoder raw_packet) in
    load_queue (dc_name topics) timestamp mx_payload
               (row_num mod LOG_INTERVAL_QUEUE =? 0)%Z
  else if table_is table_name "mx_logpage" then
    ret tt
  else if table_is table_name "fx_status" then
    let* fx_payload := lift (fx_decoder decoder raw_packet) in
    load_queue (dc_name topics) timestamp fx_payload
               (row_num mod LOG_INTERVAL_QUEUE =? 0)%Z
  else ret tt.

Definition _end_table (table_name : option string) : R unit :=
  emit (Log (LogEndTable table_name)).

Definition _extract_column_in (line : string) : R unit :=
  modify (fun st => set_lines_read (g_lines_read st + 1)%Z st);;
  let cells := PyStr.split tab line in
  let* i_timestamp := get g_col_timestamp in
  let* timestamp := lift (getitem cells i_timestamp) in
  let* i_tzoffset := get g_col_tzoffset in
  let* tzoffset := lift (getitem cells i_tzoffset) in
  let* i_raw := get g_col_raw in
  let* raw_packet := lift (getitem cells i_raw) in
  let* timestamp_utc := lift (parse_timestamp timestamp) in
  let* seconds := lift (PyInt.int tzoffset) in
  let* delta := lift (PyTime.timedelta_seconds seconds) in
  let tzinfo := PyTime.tzoffset delta in
  let timestamp := PyTime.replace_tzinfo timestamp_utc tzinfo in
  let* raw_packet := lift (PyHex.fromhex (PyStr.slice_from 3 raw_packet)) in
  let* lines_read := get g_lines_read in
  (if (lines_read mod LOG_INTERVAL_TABLE =? 0)%Z then
     if PyTime.printable timestamp
     then emit (Log (LogReadLines lines_read timestamp))
     else raise ValueError
   else ret tt);;
  let* table_name := get g_table_name in
  let* row_num := get g_lines_read in
  _column_in table_name row_num timestamp raw_packet.

Definition _extract_start_table (matched_line : string * string) : R unit :=
  modify (set_table_name (Some (fst matched_line)));;
  let g_columns := column_tokens (snd matched_line) in
  let g_columns_map := columns_map g_columns in
  let* table_name := get g_table_name in
  emit (Log (LogBeginTable table_name));;
  emit (Log (LogColumns (PyStr.join "," g_columns)));;
  try_except
    (let* i := lift (dict_getitem g_columns_map "timestamp") in
     modify (set_col_timestamp (Some i));;
     let* i := lift (dict_getitem g_columns_map "tzoffset") in
     modify (set_col_tzoffset (Some i));;
     let* i := lift (dict_getitem g_columns_map "raw_packet") in
     modify (set_col_raw (Some i)))
    (fun err => emit (Log (LogSkippingTable err));; raise err);;
  modify (set_read_rows true);;
  modify (set_lines_read 0).

(** The body of the [for] loop of [read_compressed_xz]. *)
Definition loop_body (line_raw : string) : R signal :=
  let* decoded := lift (decode_ascii line_raw) in
  let line := PyStr.strip decoded in
  let* reading := get g_read_rows in
  if reading then
    if String.eqb line "\." || String.eqb line "" then
      let* table_name := get g_table_name in
      _end_table table_name;;
      let* lines_read := get g_lines_read in
      emit (Log (LogReadRows lines_read));;
      modify (set_read_rows false);;
      ret Next
    else
      _extract_column_in line;;
      ret Next
  else if PyStr.startswith "COPY " line then
    match PyRe.match_copy line with
    | Some matched_line =>
        let* started :=
          try_except (_extract_start_table matched_line;; ret true)
                     (fun _ => ret false) in
        if started then
          let* table_name := get g_table_name in
          _start_table table_name;;
          ret Next
        else ret Next
    | None => ret Next
    end
  else if PyStr.startswith "-- Completed" line then
    emit (Log LogEndOfBackup);;
    ret Break
  else ret Next.

(** [read_compressed_xz], given the lines of the decompressed file. *)
Fixpoint read_compressed_xz (open_file : list string) (st : BackupReader)
  : run (event Payload) :=
  match open_file with
  | [] => mkRun Exhausted [] st []
  | line_raw :: rest =>
      let r := loop_body line_raw st in
      match value r with
      | Ok Next =>
          let r' := read_compressed_xz rest (after r) in
          mkRun (stop r') (unread r') (final r') (trace r ++ events r')
      | Ok Break => mkRun Completed rest (after r) (trace r)
      | Raise e => mkRun (Aborted e) rest (after r) (trace r)
      end
  end.

End Reader.

(** ** A concrete setting

    Decoders that hand the packet back as the payload (the first two reject
    an empty packet), and the measurement names of the three devices. *)

Definition sample_decoder : PyMateDecoder PyHex.bytes :=
  mkPyMateDecoder PyHex.bytes
    (fun p => match p with [] => Raise DecoderError | _ => Ok p end)
    (fun p => match p with [] => Raise DecoderError | _ => Ok p end)
    (fun p => Ok p).

Definition sample_topics : MqttTopics :=
  mkMqttTopics "dc_status" "fx_status" "mx_status".

Definition sample_run (open_file : list string) : run (event PyHex.bytes) :=
  read_compressed_xz sample_decoder sample_topics open_file init.

(** A line of the dump as the file iterator yields it: with its line feed. *)
Definition nl (s : string) : string := s +:+ String PyRe.newline EmptyString.

(** A row of cells, tab-separated. *)
Definition row (cells : list string) : string :=
  PyStr.join (String tab EmptyString) cells.

(** A name in double quotes, as the dump writes a column whose name is an
    SQL keyword. *)
Definition quoted (s : string) : string :=
  String quote (s +:+ String quote EmptyString).

(** The start of the dc_status table, a row of it, and the reader once
    that table is open. *)
Definition dc_start : string :=
  nl "COPY dc_status (timestamp, tzoffset, raw_packet) FROM stdin;".

Definition dc_row : string :=
  nl (row ["2020-01-01 00:00:00.123456"; "46800"; "\\x00112233"]).

Definition dc_open : BackupReader :=
  mkBackupReader (Some 2%nat) (Some 0%nat) (Some 1%nat) 0 true
                 (Some "dc_status").

(** A table without the tzoffset column, and the end of the dump. *)
Definition foo_start : string :=
  nl "COPY foo (a, timestamp, raw_packet) FROM stdin;".

Definition end_of_backup : string := nl "-- Completed on 2020-01-02".

(** The reader after seven rows of dc_status and the end of that table. *)
Definition dc_open_idle : BackupReader :=
  mkBackupReader (Some 2%nat) (Some 0%nat) (Some 1%nat) 7 false
                 (Some "dc_status").

(** ** The bounded queue

    The queue between the reader and the writers ([THREADED_QUEUE], filled
    by [MqttConnector.load_queue]) is defined outside the files at hand;
    the tests of [test_mqtt_classes.py] only drive it. *)

Module BoundedQueue.
Section Queue.
Context {A : Type}.

(** Modelled from the spec: the state of the BoundedQueue of the data
    model, which is missing from the sources: an ordered sequence of
    items and a fixed capacity. *)
Record t : Type := mk {
  items : list A;
  capacity : nat
}.

(** Modelled from the spec: the [length] of the data model, the number
    of items held. *)
Definition length (q : t) : nat := List.length (items q).

(** Modelled from the spec: a new queue of the given capacity, holding
    nothing. *)
Definition create (n : nat) : t := mk [] n.

(** Modelled from the spec: [enqueue(item)] blocks the calling thread
    while [length == capacity], then appends.  [None] is the caller
    left waiting, the queue untouched. *)
Definition enqueue (item : A) (q : t) : option t :=
  if Nat.eqb (length q) (capacity q) then None
  else Some (mk (items q ++ [item]) (capacity q)).

(** Modelled from the spec: [dequeue()] blocks while [length == 0],
    then removes and returns the oldest item. *)
Definition dequeue (q : t) : option (A * t) :=
  match items q with
  | [] => None
  | x :: r => Some (x, mk r (capacity q))
  end.

(** Modelled from the spec: what a thread may ask of the queue. *)
Inductive op : Type :=
| Enqueue (item : A)
| Dequeue.

(** Modelled from the spec: the queue together with the record of
    every item whose enqueue completed and every item a dequeue
    returned, each in order of completion. *)
Record history : Type := mkHistory {
  queue : t;
  enqueued : list A;
  dequeued : list A
}.

(** Modelled from the spec: one thread is scheduled and attempts its
    operation; an attempt that blocks changes nothing, and the thread
    tries again when it is scheduled next. *)
Definition step (h : history) (o : op) : history :=
  match o with
  | Enqueue x =>
      match enqueue x (queue h) with
      | Some q' => mkHistory q' (enqueued h ++ [x]) (dequeued h)
      | None => h
      end
  | Dequeue =>
      match dequeue (queue h) with
      | Some (x, q') => mkHistory q' (enqueued h) (dequeued h ++ [x])
      | None => h
      end
  end.

(** Modelled from the spec: any interleaving of the producer and the
    consumers is a sequence of attempts on a queue created empty. *)
Definition schedule (n : nat) (ops : list op) : history :=
  fold_left step ops (mkHistory (create n) [] []).

End Queue.
Arguments t A : clear implicits.
Arguments op A : clear implicits.
Arguments history A : clear implicits.
End BoundedQueue.

(** ** Notions used in the statements *)

(** The columns a table must declare. *)
Definition required_columns : list string :=
  ["timestamp"; "tzoffset"; "raw_packet"].

(** What the loop sees in a raw line while no table is open: the two
    groups of the table-start pattern, if the line decodes, starts with
    the COPY word once stripped, and matches. *)
Definition table_start (line_raw : string) : option (string * string) :=
  match decode_ascii line_raw with
  | Ok decoded =>
      let line := PyStr.strip decoded in
      if PyStr.startswith "COPY " line then PyRe.match_copy line else None
  | Raise _ => None
  end.

Definition declares (cols : string) (k : string) : bool :=
  existsb (String.eqb k) (column_tokens cols).

Definition declares_required (cols : string) : bool :=
  forallb (declares cols) required_columns.

(** A table-start line whose column list has the three required names. *)
Definition valid_table_start (line_raw : string) : bool :=
  match table_start line_raw with
  | Some matched_line => declares_required (snd matched_line)
  | None => false
  end.

(** The event is no call of [load_queue]. *)
Definition no_load_queue {Payload} (e : event Payload) : Prop :=
  is_load_queue e = false.

(** The event, if it is a call of [load_queue], names measurement [m]. *)
Definition measurement_is {Payload} (m : string) (e : event Payload) : Prop :=
  match e with
  | LoadQueue m' _ _ _ => m' = m
  | Log _ => True
  end.

(** The event, if it carries a time (a call of [load_queue], a progress
    report), carries [t]. *)
Definition time_field_is {Payload} (t : PyTime.datetime) (e : event Payload)
  : Prop :=
  match e with
  | LoadQueue _ t' _ _ => t' = t
  | Log (LogReadLines _ t') => t' = t
  | Log _ => True
  end.

(** The events a data row can cause: the sampled progress report and the
    call of [load_queue]; in particular neither the report of the rows
    read at the end of a table nor the end-of-backup message. *)
Definition row_event {Payload} (e : event Payload) : Prop :=
  match e with
  | Log (LogReadLines _ _) => True
  | LoadQueue _ _ _ _ => True
  | Log _ => False
  end.

(** A row that cannot be decoded: a required cell is missing, the
    timestamp parses in neither format, or the packet is no hex text. *)
Definition row_decode_failure (st : BackupReader) (line : string) : Prop :=
  let cells := PyStr.split tab line in
  (exists e, getitem cells (g_col_timestamp st) = Raise e)
  \/ (exists e, getitem cells (g_col_tzoffset st) = Raise e)
  \/ (exists e, getitem cells (g_col_raw st) = Raise e)
  \/ (exists ts e, getitem cells (g_col_timestamp st) = Ok ts
                   /\ parse_timestamp ts = Raise e)
  \/ (exists rp e, getitem cells (g_col_raw st) = Ok rp
                   /\ PyHex.fromhex (PyStr.slice_from 3 rp) = Raise e).

(** What [_extract_start_table] logs before it looks for the columns. *)
Definition begin_events {Payload} (m : string * string)
  : list (event Payload) :=
  [Log (LogBeginTable (Some (fst m)));
   Log (LogColumns (PyStr.join "," (column_tokens (snd m))))].

(** [i] is the last position of [k] in [l]. *)
Definition last_position (k : string) (l : list string) (i : nat) : Prop :=
  l !! i = Some k /\ forall j, l !! j = Some k -> j <= i.

(** ** Further notions used in the statements *)

(** A line the loop passes over while no table is open: it decodes, it is
    no table start (not even one the pattern rejects), and it does not
    start with the end-of-backup mark. *)
Definition ignored_line (line_raw : string) : bool :=
  PyStr.is_ascii line_raw
  && match table_start line_raw with Some _ => false | None => true end
  && negb (PyStr.startswith "-- Completed" (PyStr.strip line_raw)).

(** A line that ends the open table, and a line taken for a row of it. *)
Definition terminator_line (line_raw : string) : bool :=
  PyStr.is_ascii line_raw
  && (String.eqb (PyStr.strip line_raw) "\."
      || String.eqb (PyStr.strip line_raw) "").

Definition data_line (line_raw : string) : bool :=
  PyStr.is_ascii line_raw
  && negb (String.eqb (PyStr.strip line_raw) "\."
           || String.eqb (PyStr.strip line_raw) "").

(** The time an event carries, if any, has a zone attached. *)
Definition time_is_aware {Payload} (e : event Payload) : Prop :=
  match e with
  | LoadQueue _ t _ _ => PyTime.tzinfo t <> None
  | Log (LogReadLines _ t) => PyTime.tzinfo t <> None
  | Log _ => True
  end.

(** The number of occurrences of a character in a text. *)
Fixpoint count_char (x : ascii) (s : string) : nat :=
  match s with
  | EmptyString => 0
  | String c r => (if Ascii.eqb c x then 1 else 0) + count_char x r
  end.

(** A character other than the point, and a directive of a time format
    that only ever reads such characters. *)
Definition no_dot (c : ascii) : bool := negb (Ascii.eqb c ".").

Definition consumes_no_dot {A} (p : PyTime.parser A) : Prop :=
  forall s v r,
    In (v, r) (p s) ->
    exists pre, s = pre +:+ r
                /\ forallb no_dot (list_ascii_of_string pre) = true.

(** The [log] arguments of the calls of [load_queue], in order. *)
Fixpoint queued_logs {Payload} (es : list (event Payload)) : list bool :=
  match es with
  | [] => []
  | LoadQueue _ _ _ b :: r => b :: queued_logs r
  | Log _ :: r => queued_logs r
  end.

(** The tables whose rows [_column_in] hands to a decoder. *)
Definition decoded_table (table_name : option string) : bool :=
  table_is table_name "dc_status"
  || table_is table_name "mx_status"
  || table_is table_name "fx_status".

(** What every reachable history of the queue satisfies. *)
Definition queue_inv {A} (n : nat) (h : BoundedQueue.history A) : Prop :=
  BoundedQueue.capacity (BoundedQueue.queue h) = n
  /\ BoundedQueue.length (BoundedQueue.queue h) <= n
  /\ BoundedQueue.enqueued h =
     BoundedQueue.dequeued h ++ BoundedQueue.items (BoundedQueue.queue h).

(** * Properties *)

(** ** The bounded queue *)

Section QueueFacts.
Context {A : Type}.
Import BoundedQueue.

Lemma queue_inv_create (n : nat) :
  queue_inv (A := A) n (mkHistory (create n) [] []).
Proof. unfold queue_inv, length. simpl. repeat split. lia. Qed.

Lemma queue_inv_step (n : nat) (h : history A) (o : op A) :
  queue_inv n h -> queue_inv n (step h o).
Proof.
  intros (Hc & Hl & Hf). destruct h as [[its c] enq deq].
  unfold queue_inv, length in *. simpl in *. subst c.
  destruct o as [x|]; unfold step, enqueue, dequeue, length; simpl.
  - destruct (Nat.eqb_spec (List.length its) n) as [E|E]; simpl.
    + split; [reflexivity|]. split; [lia|exact Hf].
    + split; [reflexivity|]. split.
      * rewrite length_app. simpl. lia.
      * rewrite Hf. now rewrite app_assoc.
  - destruct its as [|y r]; simpl in *.
    + split; [reflexivity|]. split; [lia|exact Hf].
    + split; [reflexivity|]. split; [lia|].
      rewrite Hf. now rewrite <- app_assoc.
Qed.

Lemma queue_inv_fold (n : nat) (ops : list (op A)) (h : history A) :
  queue_inv n h -> queue_inv n (fold_left step ops h).
Proof.
  revert h. induction ops as [|o ops IH]; intros h Hh; simpl; auto.
  apply IH. now apply queue_inv_step.
Qed.

Lemma queue_inv_schedule (n : nat) (ops : list (op A)) :
  queue_inv n (schedule n ops).
Proof. apply queue_inv_fold, queue_inv_create. Qed.

(** C2.  On a queue created with capacity [n], after any interleaving of
    attempts: the length is at most [n]; an enqueue blocks exactly when
    the queue is full and otherwise appends; when the queue is full, one
    dequeue is enough for a blocked enqueue to complete; a dequeue blocks
    exactly when the queue is empty and otherwise returns the oldest
    item; the items enqueued are the items dequeued followed by the items
    still held, in the same order, so that on an empty queue the two
    records are equal and of equal length. *)
Theorem bounded_queue_contract (n : nat) (ops : list (op A)) :
  let h := schedule n ops in
  let q := queue h in
  capacity q = n
  /\ length q <= n
  /\ (forall x, length q = n -> enqueue x q = None)
  /\ (forall x, length q < n ->
        enqueue x q = Some (mk (items q ++ [x]) n))
  /\ (forall x, length q = n -> 0 < n ->
        exists y q', dequeue q = Some (y, q')
                     /\ hd_error (items q) = Some y
                     /\ enqueue x q' = Some (mk (items q' ++ [x]) n))
  /\ (length q = 0 -> dequeue q = None)
  /\ (forall y r, items q = y :: r -> dequeue q = Some (y, mk r n))
  /\ enqueued h = dequeued h ++ items q
  /\ (length q = 0 ->
        enqueued h = dequeued h
        /\ List.length (enqueued h) = List.length (dequeued h)).
Proof.
  intros h q. destruct (queue_inv_schedule n ops) as (Hc & Hl & Hf).
  fold h in Hc, Hl, Hf. fold q in Hc, Hl, Hf.
  split; [exact Hc|]. split; [exact Hl|].
  split.
  { intros x E. unfold enqueue. rewrite Hc, E, Nat.eqb_refl. reflexivity. }
  split.
  { intros x E. unfold enqueue. rewrite Hc.
    destruct (Nat.eqb_spec (length q) n); [lia|reflexivity]. }
  split.
  { intros x E Hn. unfold dequeue, enqueue, length in *.
    destruct (items q) as [|y r] eqn:Hi; simpl in E; [lia|].
    exists y, (mk r (capacity q)). split; [reflexivity|]. split; [reflexivity|]. simpl.
    rewrite Hc. destruct (Nat.eqb_spec (List.length r) n); [lia|reflexivity]. }
  split.
  { unfold length, dequeue. destruct (items q); simpl; [reflexivity|lia]. }
  split.
  { intros y r Hi. unfold dequeue. rewrite Hi, Hc. reflexivity. }
  split; [exact Hf|].
  intros E. unfold length in E.
  destruct (items q); simpl in E; [|lia].
  rewrite app_nil_r in Hf. split; [exact Hf|now rewrite Hf].
Qed.

End QueueFacts.

(** ** Evaluating a method call step by step *)

Section MonadFacts.
Context {E : Type}.
Local Open Scope reader_scope.

Lemma outcome_eta {A} (r : outcome E A) :
  mkOutcome (value r) (after r) (trace r) = r.
Proof. now destruct r. Qed.

Lemma bind_lift_ok {A B} (a : A) (k : A -> M E B) (st : BackupReader) :
  bind (lift (Ok a)) k st = k a st.
Proof. unfold bind, lift. simpl. apply outcome_eta. Qed.

Lemma bind_lift_raise {A B} (e : exn) (k : A -> M E B) (st : BackupReader) :
  bind (lift (Raise e)) k st = mkOutcome (Raise e) st [].
Proof. reflexivity. Qed.

Lemma bind_ret {A B} (a : A) (k : A -> M E B) (st : BackupReader) :
  bind (ret a) k st = k a st.
Proof. unfold bind, ret. simpl. apply outcome_eta. Qed.

Lemma bind_raise {A B} (e : exn) (k : A -> M E B) (st : BackupReader) :
  bind (raise e) k st = mkOutcome (Raise e) st [].
Proof. reflexivity. Qed.

Lemma bind_get {A B} (f : BackupReader -> A) (k : A -> M E B)
      (st : BackupReader) :
  bind (get f) k st = k (f st) st.
Proof. unfold bind, get. simpl. apply outcome_eta. Qed.

Lemma bind_modify {B} (f : BackupReader -> BackupReader)
      (k : unit -> M E B) (st : BackupReader) :
  bind (modify f) k st = k tt (f st).
Proof. unfold bind, modify. simpl. apply outcome_eta. Qed.

Lemma bind_emit {B} (e : E) (k : unit -> M E B) (st : BackupReader) :
  bind (emit e) k st =
  mkOutcome (value (k tt st)) (after (k tt st)) (e :: trace (k tt st)).
Proof. reflexivity. Qed.

Lemma bind_assoc {A B C} (m : M E A) (k : A -> M E B) (k' : B -> M E C)
      (st : BackupReader) :
  bind (bind m k) k' st = bind m (fun a => bind (k a) k') st.
Proof.
  unfold bind. destruct (m st) as [[a|e] st1 t1]; simpl; [|reflexivity].
  destruct (k a st1) as [[b|e] st2 t2]; simpl; [|reflexivity].
  now rewrite app_assoc.
Qed.

(** Every event of a call satisfies [P]. *)
Lemma trace_bind {A B} (P : E -> Prop) (m : M E A) (k : A -> M E B)
      (st : BackupReader) :
  Forall P (trace (m st)) ->
  (forall a, value (m st) = Ok a -> Forall P (trace (k a (after (m st))))) ->
  Forall P (trace (bind m k st)).
Proof.
  intros Hm Hk. unfold bind.
  destruct (m st) as [[a|e] st1 t1]; simpl in *; [|exact Hm].
  apply Forall_app. split; [exact Hm|]. now apply Hk.
Qed.

Lemma trace_try_except {A} (P : E -> Prop) (m : M E A) (h : exn -> M E A)
      (st : BackupReader) :
  Forall P (trace (m st)) ->
  (forall e, value (m st) = Raise e -> Forall P (trace (h e (after (m st))))) ->
  Forall P (trace (try_except m h st)).
Proof.
  intros Hm Hh. unfold try_except.
  destruct (m st) as [[a|e] st1 t1]; simpl in *; [exact Hm|].
  apply Forall_app. split; [exact Hm|]. now apply Hh.
Qed.

End MonadFacts.

Create Rewrite HintDb reader.
#[local] Hint Rewrite @bind_lift_ok @bind_lift_raise @bind_ret @bind_raise
  @bind_get @bind_modify @bind_emit : reader.

(** One step of symbolic evaluation of a method body. *)
Ltac mstep := autorewrite with reader; cbv beta.

(** Evaluation of a method body whose steps are all known, by value, so
    that no intermediate outcome is computed twice. *)
Ltac run_method :=
  cbv [bind try_except lift get modify emit ret raise of_option
       value after trace app
       set_col_raw set_col_timestamp set_col_tzoffset set_lines_read
       set_read_rows set_table_name
       g_col_raw g_col_timestamp g_col_tzoffset g_lines_read g_read_rows
       g_table_name].


(** ** The column map *)

Lemma enumerate_from_app (b : nat) (l1 l2 : list string) :
  enumerate_from b (l1 ++ l2) =
  enumerate_from b l1 ++ enumerate_from (b + length l1) l2.
Proof.
  revert b. induction l1 as [|x l1 IH]; intros b; simpl.
  - now rewrite Nat.add_0_r.
  - rewrite IH. do 3 f_equal. lia.
Qed.

Lemma columns_map_snoc (l : list string) (x : string) :
  columns_map (l ++ [x]) = <[x := length l]> (columns_map l).
Proof.
  unfold columns_map. rewrite enumerate_from_app, fold_left_app. reflexivity.
Qed.

Lemma last_position_snoc_eq (k : string) (l : list string) (i : nat) :
  last_position k (l ++ [k]) i <-> i = length l.
Proof.
  unfold last_position. split.
  - intros [Hi Hlast].
    assert (length l <= i) by (apply Hlast; apply list_lookup_middle; reflexivity).
    apply lookup_lt_Some in Hi. rewrite length_app in Hi. simpl in Hi. lia.
  - intros ->. split.
    + now apply list_lookup_middle.
    + intros j Hj. apply lookup_lt_Some in Hj.
      rewrite length_app in Hj. simpl in Hj. lia.
Qed.

Lemma lookup_snoc_ne (k x : string) (l : list string) (j : nat) :
  x <> k -> (l ++ [x]) !! j = Some k <-> l !! j = Some k.
Proof.
  intros Hne. split; intros H.
  - destruct (Nat.lt_ge_cases j (length l)) as [Hlt|Hge].
    + now rewrite lookup_app_l in H.
    + rewrite lookup_app_r in H by lia.
      destruct (j - length l) as [|n]; simpl in H; [congruence|discriminate].
  - rewrite lookup_app_l; [exact H|]. now apply lookup_lt_Some in H.
Qed.

Lemma last_position_snoc_ne (k x : string) (l : list string) (i : nat) :
  x <> k -> last_position k (l ++ [x]) i <-> last_position k l i.
Proof.
  intros Hne. unfold last_position.
  rewrite (lookup_snoc_ne k x l i Hne).
  split; intros [Hi Hlast]; (split; [exact Hi|]); intros j Hj; apply Hlast.
  - now apply lookup_snoc_ne.
  - now apply lookup_snoc_ne in Hj.
Qed.

(** The map sends a name to its last position in the list of columns. *)
Lemma columns_map_Some (l : list string) (k : string) (i : nat) :
  columns_map l !! k = Some i <-> last_position k l i.
Proof.
  revert i. induction l as [|x l IH] using rev_ind; intros i.
  - unfold columns_map, last_position. simpl. rewrite lookup_empty.
    split; [discriminate|]. intros [H _]. discriminate.
  - rewrite columns_map_snoc. destruct (decide (x = k)) as [->|Hne].
    + rewrite lookup_insert_eq, last_position_snoc_eq.
      split; [now intros [= <-]|now intros ->].
    + rewrite lookup_insert_ne by exact Hne.
      rewrite last_position_snoc_ne by exact Hne. apply IH.
Qed.

Lemma columns_map_None (l : list string) (k : string) :
  columns_map l !! k = None <-> ~ In k l.
Proof.
  induction l as [|x l IH] using rev_ind.
  - unfold columns_map. simpl. rewrite lookup_empty. tauto.
  - rewrite columns_map_snoc, in_app_iff. simpl.
    destruct (decide (x = k)) as [->|Hne].
    + rewrite lookup_insert_eq. split; [discriminate|tauto].
    + rewrite lookup_insert_ne by exact Hne. rewrite IH. tauto.
Qed.

Lemma columns_map_In (l : list string) (k : string) :
  In k l -> exists i, columns_map l !! k = Some i.
Proof.
  intros Hin. destruct (columns_map l !! k) as [i|] eqn:E; [now exists i|].
  now apply columns_map_None in E.
Qed.

(** ** The methods of the reader, case by case *)

Section ReaderFacts.
Context {Payload : Type}.
Variable decoder : PyMateDecoder Payload.
Variable topics : MqttTopics.

Local Abbreviation start_table := (@_extract_start_table Payload).
Local Abbreviation column_in := (_column_in decoder topics).
Local Abbreviation extract_column_in := (_extract_column_in decoder topics).
Local Abbreviation body := (loop_body decoder topics).
Local Abbreviation read := (read_compressed_xz decoder topics).
Local Abbreviation begin_ev := (@begin_events Payload).

Lemma extract_start_table_ok (m : string * string) (st : BackupReader)
      (i j k : nat) :
  columns_map (column_tokens (snd m)) !! "timestamp" = Some i ->
  columns_map (column_tokens (snd m)) !! "tzoffset" = Some j ->
  columns_map (column_tokens (snd m)) !! "raw_packet" = Some k ->
  start_table m st =
  mkOutcome (Ok tt)
    (mkBackupReader (Some k) (Some i) (Some j) 0 true (Some (fst m)))
    (begin_ev m).
Proof.
  intros Hi Hj Hk.
  unfold _extract_start_table, dict_getitem.
  rewrite Hi, Hj, Hk. run_method. reflexivity.
Qed.

Lemma extract_start_table_no_timestamp (m : string * string)
      (st : BackupReader) :
  columns_map (column_tokens (snd m)) !! "timestamp" = None ->
  start_table m st =
  mkOutcome (Raise (KeyError "timestamp"))
    (set_table_name (Some (fst m)) st)
    (begin_ev m ++ [Log (LogSkippingTable (KeyError "timestamp"))]).
Proof.
  intros Hi.
  unfold _extract_start_table, dict_getitem.
  rewrite Hi. run_method. reflexivity.
Qed.

Lemma extract_start_table_no_tzoffset (m : string * string)
      (st : BackupReader) (i : nat) :
  columns_map (column_tokens (snd m)) !! "timestamp" = Some i ->
  columns_map (column_tokens (snd m)) !! "tzoffset" = None ->
  start_table m st =
  mkOutcome (Raise (KeyError "tzoffset"))
    (set_col_timestamp (Some i) (set_table_name (Some (fst m)) st))
    (begin_ev m ++ [Log (LogSkippingTable (KeyError "tzoffset"))]).
Proof.
  intros Hi Hj.
  unfold _extract_start_table, dict_getitem.
  rewrite Hi, Hj. run_method. reflexivity.
Qed.

Lemma extract_start_table_no_raw_packet (m : string * string)
      (st : BackupReader) (i j : nat) :
  columns_map (column_tokens (snd m)) !! "timestamp" = Some i ->
  columns_map (column_tokens (snd m)) !! "tzoffset" = Some j ->
  columns_map (column_tokens (snd m)) !! "raw_packet" = None ->
  start_table m st =
  mkOutcome (Raise (KeyError "raw_packet"))
    (set_col_tzoffset (Some j)
       (set_col_timestamp (Some i) (set_table_name (Some (fst m)) st)))
    (begin_ev m ++ [Log (LogSkippingTable (KeyError "raw_packet"))]).
Proof.
  intros Hi Hj Hk.
  unfold _extract_start_table, dict_getitem.
  rewrite Hi, Hj, Hk. run_method. reflexivity.
Qed.

(** [_column_in] leaves the fields alone, and whatever it queues goes
    under the dc name, with the time it was given. *)
Lemma column_in_cases (table_name : option string) (row_num : Z)
      (t : PyTime.datetime) (raw : PyHex.bytes) (st : BackupReader) :
  let r := column_in table_name row_num t raw st in
  after r = st
  /\ ((exists e, value r = Raise e /\ trace r = [])
      \/ (value r = Ok tt /\ trace r = [])
      \/ (exists p, value r = Ok tt
                    /\ trace r = [LoadQueue (dc_name topics) t p
                                    (row_num mod LOG_INTERVAL_QUEUE =? 0)%Z])).
Proof.
  unfold _column_in, load_queue, bind, lift, emit, ret.
  destruct (table_is table_name "dc_status").
  { destruct (dc_decoder decoder raw) as [p|e]; cbn; split; eauto 6. }
  destruct (table_is table_name "mx_status").
  { destruct (mx_decoder decoder raw) as [p|e]; cbn; split; eauto 6. }
  destruct (table_is table_name "mx_logpage").
  { cbn; split; eauto. }
  destruct (table_is table_name "fx_status").
  { destruct (fx_decoder decoder raw) as [p|e]; cbn; split; eauto 6. }
  cbn; split; eauto.
Qed.

(** [_extract_column_in], written out step by step. *)
Lemma extract_column_in_unfold (line : string) (st : BackupReader) :
  extract_column_in line st =
  let st1 := set_lines_read (g_lines_read st + 1)%Z st in
  let cells := PyStr.split tab line in
  match getitem cells (g_col_timestamp st) with
  | Raise e => mkOutcome (Raise e) st1 []
  | Ok ts =>
  match getitem cells (g_col_tzoffset st) with
  | Raise e => mkOutcome (Raise e) st1 []
  | Ok tz =>
  match getitem cells (g_col_raw st) with
  | Raise e => mkOutcome (Raise e) st1 []
  | Ok rp =>
  match parse_timestamp ts with
  | Raise e => mkOutcome (Raise e) st1 []
  | Ok t0 =>
  match PyInt.int tz with
  | Raise e => mkOutcome (Raise e) st1 []
  | Ok n =>
  match PyTime.timedelta_seconds n with
  | Raise e => mkOutcome (Raise e) st1 []
  | Ok d =>
  match PyHex.fromhex (PyStr.slice_from 3 rp) with
  | Raise e => mkOutcome (Raise e) st1 []
  | Ok raw =>
      let t := PyTime.replace_tzinfo t0 (PyTime.tzoffset d) in
      let r := column_in (g_table_name st) (g_lines_read st + 1)%Z t raw st1 in
      if ((g_lines_read st + 1) mod LOG_INTERVAL_TABLE =? 0)%Z then
        if PyTime.printable t then
          mkOutcome (value r) (after r)
                    (Log (LogReadLines (g_lines_read st + 1)%Z t) :: trace r)
        else mkOutcome (Raise ValueError) st1 []
      else r
  end end end end end end end.
Proof.
  unfold _extract_column_in. mstep. cbn [g_col_timestamp g_col_tzoffset g_col_raw set_lines_read].
  destruct (getitem _ (g_col_timestamp st)) as [ts|e]; mstep; [|reflexivity].
  cbn [g_col_timestamp g_col_tzoffset g_col_raw set_lines_read].
  destruct (getitem _ (g_col_tzoffset st)) as [tz|e]; mstep; [|reflexivity].
  cbn [g_col_timestamp g_col_tzoffset g_col_raw set_lines_read].
  destruct (getitem _ (g_col_raw st)) as [rp|e]; mstep; [|reflexivity].
  destruct (parse_timestamp ts) as [t0|e]; mstep; [|reflexivity].
  destruct (PyInt.int tz) as [n|e]; mstep; [|reflexivity].
  destruct (PyTime.timedelta_seconds n) as [d|e]; mstep; [|reflexivity].
  destruct (PyHex.fromhex _) as [raw|e]; mstep; [|reflexivity].
  cbn [g_lines_read g_table_name set_lines_read].
  destruct (_ =? 0)%Z.
  - destruct (PyTime.printable _); mstep; [|reflexivity].
    cbn [g_lines_read g_table_name set_lines_read]. reflexivity.
  - mstep. cbn [g_lines_read g_table_name set_lines_read]. reflexivity.
Qed.

Lemma declares_In (cols k : string) :
  declares cols k = true <-> In k (column_tokens cols).
Proof.
  unfold declares. rewrite existsb_exists. split.
  - intros (x & Hx & E). apply String.eqb_eq in E. now subst.
  - intros H. exists k. split; [exact H|apply String.eqb_refl].
Qed.

Lemma declares_lookup (cols k : string) :
  declares cols k = false <-> columns_map (column_tokens cols) !! k = None.
Proof.
  rewrite columns_map_None, <- declares_In.
  destruct (declares cols k); split; intros H; congruence.
Qed.

Lemma declares_lookup_Some (cols k : string) :
  declares cols k = true ->
  exists i, columns_map (column_tokens cols) !! k = Some i.
Proof. intros H. apply columns_map_In. now apply declares_In. Qed.

(** The two ways [_extract_start_table] can go. *)
Lemma extract_start_table_cases (m : string * string) (st : BackupReader) :
  let r := start_table m st in
  (declares_required (snd m) = true
   /\ value r = Ok tt /\ trace r = begin_ev m
   /\ g_read_rows (after r) = true)
  \/ (declares_required (snd m) = false
      /\ (exists key, value r = Raise (KeyError key)
                      /\ In key required_columns
                      /\ declares (snd m) key = false
                      /\ trace r = begin_ev m
                                   ++ [Log (LogSkippingTable (KeyError key))])
      /\ g_read_rows (after r) = g_read_rows st
      /\ g_lines_read (after r) = g_lines_read st
      /\ g_col_raw (after r) = g_col_raw st
      /\ g_table_name (after r) = Some (fst m)).
Proof.
  unfold declares_required, required_columns. cbn [forallb].
  destruct (declares (snd m) "timestamp") eqn:D1.
  2:{ right. apply declares_lookup in D1 as L1.
      rewrite (extract_start_table_no_timestamp m st L1). cbn.
      split; [reflexivity|]. split; [|auto].
      exists "timestamp". auto 6. }
  destruct (declares_lookup_Some _ _ D1) as [i Hi].
  destruct (declares (snd m) "tzoffset") eqn:D2.
  2:{ right. apply declares_lookup in D2 as L2.
      rewrite (extract_start_table_no_tzoffset m st i Hi L2). cbn.
      split; [reflexivity|]. split; [|auto].
      exists "tzoffset". auto 7. }
  destruct (declares_lookup_Some _ _ D2) as [j Hj].
  destruct (declares (snd m) "raw_packet") eqn:D3.
  2:{ right. apply declares_lookup in D3 as L3.
      rewrite (extract_start_table_no_raw_packet m st i j Hi Hj L3). cbn.
      split; [reflexivity|]. split; [|auto].
      exists "raw_packet". auto 8. }
  destruct (declares_lookup_Some _ _ D3) as [k Hk].
  left. rewrite (extract_start_table_ok m st i j k Hi Hj Hk). cbn. auto.
Qed.

(** The loop body on a line read while a table is open. *)
Lemma loop_body_reading (line_raw : string) (st : BackupReader) :
  g_read_rows st = true ->
  PyStr.is_ascii line_raw = true ->
  let line := PyStr.strip line_raw in
  body line_raw st =
  if String.eqb line "\." || String.eqb line "" then
    mkOutcome (Ok Next) (set_read_rows false st)
              [Log (LogEndTable (g_table_name st));
               Log (LogReadRows (g_lines_read st))]
  else
    let r := extract_column_in line st in
    mkOutcome (match value r with Ok _ => Ok Next | Raise e => Raise e end)
              (after r) (trace r).
Proof.
  intros Hr Ha line. unfold loop_body, decode_ascii. rewrite Ha. mstep.
  rewrite Hr. fold line. destruct (_ || _).
  - unfold _end_table. mstep. reflexivity.
  - unfold bind, ret.
    destruct (_extract_column_in decoder topics line st) as [[[]|e] st1 t1];
      cbn; [now rewrite app_nil_r|reflexivity].
Qed.

(** The loop body on a line read while no table is open. *)
Lemma loop_body_seeking (line_raw : string) (st : BackupReader) :
  g_read_rows st = false ->
  body line_raw st =
  match table_start line_raw with
  | Some m =>
      let r := start_table m st in
      match value r with
      | Ok _ => mkOutcome (Ok Next) (after r)
                  (trace r ++ [Log (LogStartTable (g_table_name (after r)))])
      | Raise _ => mkOutcome (Ok Next) (after r) (trace r)
      end
  | None =>
      if PyStr.is_ascii line_raw then
        if PyStr.startswith "COPY " (PyStr.strip line_raw) then
          mkOutcome (Ok Next) st []
        else if PyStr.startswith "-- Completed" (PyStr.strip line_raw) then
          mkOutcome (Ok Break) st [Log LogEndOfBackup]
        else mkOutcome (Ok Next) st []
      else mkOutcome (Raise UnicodeDecodeError) st []
  end.
Proof.
  intros Hr. unfold loop_body, table_start, decode_ascii.
  destruct (PyStr.is_ascii line_raw); mstep; [|reflexivity].
  rewrite Hr. destruct (PyStr.startswith "COPY " _).
  - destruct (PyRe.match_copy _) as [m|]; [|reflexivity].
    unfold bind, try_except, ret, get, _start_table, emit.
    destruct (_extract_start_table m st) as [[[]|e] st1 t1]; cbn.
    + now rewrite !app_nil_r.
    + now rewrite !app_nil_r.
  - destruct (PyStr.startswith "-- Completed" _); mstep; reflexivity.
Qed.

Lemma begin_events_no_load_queue (m : string * string) :
  Forall no_load_queue (begin_ev m).
Proof. repeat constructor. Qed.

(** A line that is no valid table start, read while no table is open,
    opens none, counts no row and queues nothing. *)
Lemma seeking_step (line_raw : string) (st : BackupReader) :
  g_read_rows st = false ->
  valid_table_start line_raw = false ->
  let r := body line_raw st in
  g_read_rows (after r) = false
  /\ g_lines_read (after r) = g_lines_read st
  /\ Forall no_load_queue (trace r).
Proof.
  intros Hr Hv. cbv zeta. rewrite (loop_body_seeking _ _ Hr).
  unfold valid_table_start in Hv.
  destruct (table_start line_raw) as [m|].
  - pose proof (extract_start_table_cases m st) as Hc. cbv zeta in Hc |- *.
    destruct (_extract_start_table m st) as [v st1 t1].
    cbn [value after trace] in Hc |- *.
    destruct Hc as [(D & _)|(_ & (key & Hval & _ & _ & Htr) & Hrr & Hlr & _)].
    + congruence.
    + subst v t1. cbn. split; [congruence|]. split; [exact Hlr|].
      repeat constructor.
  - destruct (PyStr.is_ascii line_raw); [|cbn; auto].
    destruct (PyStr.startswith "COPY " _); [cbn; auto|].
    destruct (PyStr.startswith "-- Completed" _); cbn; auto.
Qed.

Lemma seeking_run (rest : list string) (st : BackupReader) :
  g_read_rows st = false ->
  Forall (fun l => valid_table_start l = false) rest ->
  let r := read rest st in
  g_read_rows (final r) = false
  /\ g_lines_read (final r) = g_lines_read st
  /\ Forall no_load_queue (events r).
Proof.
  revert st. induction rest as [|l rest IH]; intros st Hr Hall; cbn.
  - auto.
  - inversion Hall as [|? ? Hl Hrest]; subst.
    destruct (seeking_step l st Hr Hl) as (H1 & H2 & H3).
    destruct (loop_body decoder topics l st) as [[[]|e] st1 t1]; cbn in *.
    + destruct (IH st1 H1 Hrest) as (I1 & I2 & I3).
      split; [exact I1|]. split; [congruence|].
      apply Forall_app. auto.
    + auto.
    + auto.
Qed.

(** Reading a file in two parts. *)
Lemma read_app (l1 l2 : list string) (st : BackupReader) :
  read (l1 ++ l2) st =
  let r1 := read l1 st in
  match stop r1 with
  | Exhausted =>
      let r2 := read l2 (final r1) in
      mkRun (stop r2) (unread r2) (final r2) (events r1 ++ events r2)
  | _ => mkRun (stop r1) (unread r1 ++ l2) (final r1) (events r1)
  end.
Proof.
  revert st. induction l1 as [|l l1 IH]; intros st; cbn.
  - now destruct (read l2 st).
  - destruct (loop_body decoder topics l st) as [[[]|e] st1 t1]; cbn;
      [|reflexivity|reflexivity].
    rewrite IH. cbv zeta.
    destruct (stop (read l1 st1)); cbn; [now rewrite app_assoc|reflexivity..].
Qed.

Lemma column_in_measurement (table_name : option string) (row_num : Z)
      (t : PyTime.datetime) (raw : PyHex.bytes) (st : BackupReader) :
  Forall (measurement_is (dc_name topics))
         (trace (column_in table_name row_num t raw st)).
Proof.
  destruct (column_in_cases table_name row_num t raw st)
    as (_ & [(e & _ & Ht)|[(_ & Ht)|(p & _ & Ht)]]);
    rewrite Ht; repeat constructor.
Qed.

(** Whatever a row queues goes under the dc name. *)
Lemma extract_column_in_measurement (line : string) (st : BackupReader) :
  Forall (measurement_is (dc_name topics)) (trace (extract_column_in line st)).
Proof.
  rewrite extract_column_in_unfold. cbv zeta.
  repeat (match goal with
          | |- context [match ?x with Ok _ => _ | Raise _ => _ end] =>
              destruct x; [|constructor]
          end).
  match goal with
  | |- context [column_in ?a ?b ?c ?d ?e] =>
      pose proof (column_in_measurement a b c d e) as Hc
  end.
  destruct (_ =? 0)%Z; [destruct (PyTime.printable _)|]; cbn.
  - constructor; [exact I|exact Hc].
  - constructor.
  - exact Hc.
Qed.

Lemma loop_body_measurement (line_raw : string) (st : BackupReader) :
  Forall (measurement_is (dc_name topics)) (trace (body line_raw st)).
Proof.
  destruct (g_read_rows st) eqn:Hr.
  - destruct (PyStr.is_ascii line_raw) eqn:Ha.
    + rewrite (loop_body_reading _ _ Hr Ha). cbv zeta.
      destruct (_ || _); cbn; [repeat constructor|].
      apply extract_column_in_measurement.
    + unfold loop_body, decode_ascii. rewrite Ha. cbn. constructor.
  - assert (Forall no_load_queue (trace (body line_raw st))) as H.
    { rewrite (loop_body_seeking _ _ Hr).
      destruct (table_start line_raw) as [m|].
      - pose proof (extract_start_table_cases m st) as Hc.
        cbv zeta in Hc |- *.
        destruct (_extract_start_table m st) as [v st1 t1].
    cbn [value after trace] in Hc |- *.
        destruct Hc as [(_ & Hv & Ht & _)|(_ & (key & Hv & _ & _ & Ht) & _)];
          subst v t1; cbn; repeat constructor.
      - destruct (PyStr.is_ascii line_raw); [|constructor].
        destruct (PyStr.startswith "COPY " _); [constructor|].
        destruct (PyStr.startswith "-- Completed" _); repeat constructor. }
    eapply List.Forall_impl; [|exact H].
    intros [r|m t p l]; cbn; [auto|discriminate].
Qed.

Lemma read_measurement (open_file : list string) (st : BackupReader) :
  Forall (measurement_is (dc_name topics)) (events (read open_file st)).
Proof.
  revert st. induction open_file as [|l rest IH]; intros st; cbn.
  - constructor.
  - pose proof (loop_body_measurement l st) as H.
    destruct (loop_body decoder topics l st) as [[[]|e] st1 t1]; cbn in *;
      [|exact H|exact H].
    apply Forall_app. auto.
Qed.


(** ** The claims about table starts *)

Lemma required_lookup_cases (cols : string) :
  let d := columns_map (column_tokens cols) in
  (d !! "timestamp" = None /\ declares_required cols = false)
  \/ (exists i, d !! "timestamp" = Some i /\ d !! "tzoffset" = None
                /\ declares_required cols = false)
  \/ (exists i j, d !! "timestamp" = Some i /\ d !! "tzoffset" = Some j
                  /\ d !! "raw_packet" = None
                  /\ declares_required cols = false)
  \/ (exists i j k, d !! "timestamp" = Some i /\ d !! "tzoffset" = Some j
                    /\ d !! "raw_packet" = Some k
                    /\ declares_required cols = true).
Proof.
  cbv zeta. unfold declares_required, required_columns. cbn [forallb].
  destruct (declares cols "timestamp") eqn:D1.
  2:{ left. apply declares_lookup in D1. auto. }
  destruct (declares_lookup_Some _ _ D1) as [i Hi].
  destruct (declares cols "tzoffset") eqn:D2.
  2:{ right; left. apply declares_lookup in D2. eauto. }
  destruct (declares_lookup_Some _ _ D2) as [j Hj].
  destruct (declares cols "raw_packet") eqn:D3.
  2:{ right; right; left. apply declares_lookup in D3. eauto 6. }
  destruct (declares_lookup_Some _ _ D3) as [k Hk].
  right; right; right. eauto 8.
Qed.

Lemma declares_required_In (cols : string) :
  declares_required cols = true <->
  In "timestamp" (column_tokens cols)
  /\ In "tzoffset" (column_tokens cols)
  /\ In "raw_packet" (column_tokens cols).
Proof.
  unfold declares_required, required_columns. cbn [forallb].
  rewrite !andb_true_iff, !declares_In. tauto.
Qed.


(** C10.  A table-start line whose column list lacks a required name,
    read while no table is open, is skipped, yet not without trace in
    the fields: the table name is overwritten with the name of the
    skipped table; the index of timestamp is overwritten when timestamp
    is declared, and that of tzoffset when both timestamp and tzoffset
    are; an index looked up after the missing name keeps its old value,
    and the index of raw_packet always does.  The row flag stays false
    and the row count is unchanged, also after any further lines that
    are no valid table start. *)
Theorem skipped_table_leaves_marks
        (line_raw : string) (m : string * string) (st : BackupReader)
        (rest : list string) :
  g_read_rows st = false ->
  table_start line_raw = Some m ->
  declares_required (snd m) = false ->
  Forall (fun l => valid_table_start l = false) rest ->
  let cols := column_tokens (snd m) in
  let r := body line_raw st in
  value r = Ok Next
  /\ after r = after (start_table m st)
  /\ (exists key, value (start_table m st) = Raise (KeyError key))
  /\ g_table_name (after r) = Some (fst m)
  /\ g_read_rows (after r) = false
  /\ g_lines_read (after r) = g_lines_read st
  /\ g_col_raw (after r) = g_col_raw st
  /\ (~ In "timestamp" cols ->
      g_col_timestamp (after r) = g_col_timestamp st
      /\ g_col_tzoffset (after r) = g_col_tzoffset st)
  /\ (forall i, last_position "timestamp" cols i ->
                g_col_timestamp (after r) = Some i)
  /\ (In "timestamp" cols -> ~ In "tzoffset" cols ->
      g_col_tzoffset (after r) = g_col_tzoffset st)
  /\ (forall j, In "timestamp" cols -> last_position "tzoffset" cols j ->
                g_col_tzoffset (after r) = Some j)
  /\ g_read_rows (final (read (line_raw :: rest) st)) = false
  /\ g_lines_read (final (read (line_raw :: rest) st)) = g_lines_read st.
Proof.
  intros Hr Hm Hd Hrest cols r. subst cols.
  assert (Hv : valid_table_start line_raw = false)
    by (unfold valid_table_start; now rewrite Hm).
  assert (Hall : Forall (fun l => valid_table_start l = false)
                        (line_raw :: rest)) by (constructor; assumption).
  destruct (seeking_run (line_raw :: rest) st Hr Hall) as (F1 & F2 & _).
  assert (Hbody : value r = Ok Next /\ after r = after (start_table m st)
                  /\ exists key, value (start_table m st) = Raise (KeyError key)).
  { subst r. rewrite (loop_body_seeking _ _ Hr), Hm. cbv zeta.
    destruct (extract_start_table_cases m st)
      as [(D & _)|(_ & (key & Hval & _) & _)]; [congruence|].
    rewrite Hval. cbn. eauto. }
  destruct Hbody as (B1 & B2 & B3).
  split; [exact B1|]. split; [exact B2|]. split; [exact B3|].
  rewrite B2. clear B1 B2 B3 r.
  pose proof (columns_map_Some (column_tokens (snd m)) "timestamp") as Sts.
  pose proof (columns_map_Some (column_tokens (snd m)) "tzoffset") as Stz.
  pose proof (columns_map_None (column_tokens (snd m)) "timestamp") as Nts.
  pose proof (columns_map_None (column_tokens (snd m)) "tzoffset") as Ntz.
  destruct (required_lookup_cases (snd m))
    as [(L1 & _)|[(i & L1 & L2 & _)|[(i & j & L1 & L2 & L3 & _)
        |(i & j & k & _ & _ & _ & D)]]]; [| | |congruence].
  - rewrite (extract_start_table_no_timestamp m st L1).
    cbn [after set_table_name g_table_name g_read_rows g_lines_read
         g_col_raw g_col_timestamp g_col_tzoffset].
    split_and!; try reflexivity; try assumption.
    all: intros; try (split; reflexivity);
      repeat match goal with
             | H : ~ In "timestamp" _ |- _ => apply Nts in H
             | H : ~ In "tzoffset" _ |- _ => apply Ntz in H
             | H : last_position "timestamp" _ _ |- _ => apply Sts in H
             | H : last_position "tzoffset" _ _ |- _ => apply Stz in H
             | H : In "timestamp" _ |- _ => apply Nts in L1; contradiction
             end; congruence.
  - rewrite (extract_start_table_no_tzoffset m st i L1 L2).
    cbn [after set_table_name set_col_timestamp g_table_name g_read_rows
         g_lines_read g_col_raw g_col_timestamp g_col_tzoffset].
    split_and!; try reflexivity; try assumption.
    all: intros; try (split; reflexivity);
      repeat match goal with
             | H : ~ In "timestamp" _ |- _ => apply Nts in H
             | H : ~ In "tzoffset" _ |- _ => apply Ntz in H
             | H : last_position "timestamp" _ _ |- _ => apply Sts in H
             | H : last_position "tzoffset" _ _ |- _ => apply Stz in H
             | H : In "timestamp" _ |- _ => apply Nts in L1; contradiction
             end; congruence.
  - rewrite (extract_start_table_no_raw_packet m st i j L1 L2 L3).
    cbn [after set_table_name set_col_timestamp set_col_tzoffset
         g_table_name g_read_rows g_lines_read g_col_raw g_col_timestamp
         g_col_tzoffset].
    split_and!; try reflexivity; try assumption.
    all: intros; try (split; reflexivity);
      repeat match goal with
             | H : ~ In "timestamp" _ |- _ => apply Nts in H
             | H : ~ In "tzoffset" _ |- _ => apply Ntz in H
             | H : last_position "timestamp" _ _ |- _ => apply Sts in H
             | H : last_position "tzoffset" _ _ |- _ => apply Stz in H
             | H : In "timestamp" _ |- _ => apply Nts in L1; contradiction
             end; congruence.
Qed.

(** C3.  A table-start line whose column list lacks a required name,
    read while no table is open, is skipped: the loop goes on, the skip
    is logged with the missing name, no table is opened, and whatever
    lines follow, as long as none of them is a valid table start, nothing
    reaches [load_queue]; what the run on a longer file adds comes after
    these lines. *)
Theorem skipped_table_rows_not_dispatched
        (line_raw : string) (m : string * string) (st : BackupReader)
        (rest more : list string) :
  g_read_rows st = false ->
  table_start line_raw = Some m ->
  declares_required (snd m) = false ->
  Forall (fun l => valid_table_start l = false) rest ->
  value (body line_raw st) = Ok Next
  /\ (exists key, In key required_columns
                  /\ declares (snd m) key = false
                  /\ In (Log (LogSkippingTable (KeyError key)))
                        (trace (body line_raw st)))
  /\ g_read_rows (after (body line_raw st)) = false
  /\ Forall no_load_queue (events (read (line_raw :: rest) st))
  /\ g_read_rows (final (read (line_raw :: rest) st)) = false
  /\ (exists later,
        events (read ((line_raw :: rest) ++ more) st) =
        events (read (line_raw :: rest) st) ++ later).
Proof.
  intros Hr Hm Hd Hrest.
  assert (Hv : valid_table_start line_raw = false)
    by (unfold valid_table_start; now rewrite Hm).
  assert (Hall : Forall (fun l => valid_table_start l = false)
                        (line_raw :: rest)) by (constructor; assumption).
  destruct (seeking_run (line_raw :: rest) st Hr Hall) as (F1 & _ & F3).
  destruct (seeking_step line_raw st Hr Hv) as (S1 & _ & _).
  assert (Hbody : value (body line_raw st) = Ok Next
                  /\ exists key, In key required_columns
                       /\ declares (snd m) key = false
                       /\ In (Log (LogSkippingTable (KeyError key)))
                             (trace (body line_raw st))).
  { rewrite (loop_body_seeking _ _ Hr), Hm.
    pose proof (extract_start_table_cases m st) as Hc. cbv zeta in Hc |- *.
    destruct (_extract_start_table m st) as [v st1 t1].
    cbn [value after trace] in Hc |- *.
    destruct Hc as [(D & _)|(_ & (key & Hval & Hin & Hk & Htr) & _)];
      [congruence|].
    subst v t1. cbn [value trace]. split; [reflexivity|].
    exists key. split; [exact Hin|]. split; [exact Hk|].
    apply in_or_app. right. now left. }
  destruct Hbody as (B1 & B2).
  split; [exact B1|]. split; [exact B2|]. split; [exact S1|].
  split; [exact F3|]. split; [exact F1|].
  rewrite read_app. cbv zeta.
  destruct (stop (read (line_raw :: rest) st)); cbn [events].
  - eauto.
  - exists []. now rewrite app_nil_r.
  - exists []. now rewrite app_nil_r.
Qed.

(** C9.  Whatever the reader hands to [load_queue], in any run, goes
    under the dc measurement name; in particular a row of mx_status or
    of fx_status whose packet its decoder accepts is queued under the dc
    name, with the payload of the mx or fx decoder. *)
Theorem dispatcher_measurement_name :
  (forall open_file st,
      Forall (measurement_is (dc_name topics)) (events (read open_file st)))
  /\ (forall row_num t raw st p,
         mx_decoder decoder raw = Ok p ->
         column_in (Some "mx_status") row_num t raw st =
         mkOutcome (Ok tt) st
           [LoadQueue (dc_name topics) t p
                      (row_num mod LOG_INTERVAL_QUEUE =? 0)%Z])
  /\ (forall row_num t raw st p,
         fx_decoder decoder raw = Ok p ->
         column_in (Some "fx_status") row_num t raw st =
         mkOutcome (Ok tt) st
           [LoadQueue (dc_name topics) t p
                      (row_num mod LOG_INTERVAL_QUEUE =? 0)%Z]).
Proof.
  split; [exact read_measurement|].
  split; intros row_num t raw st p Hp; unfold _column_in, load_queue;
    cbn [table_is String.eqb Ascii.eqb Bool.eqb]; rewrite Hp; reflexivity.
Qed.

(** ** The claims about rows *)

Lemma extract_column_in_after (line : string) (st : BackupReader) :
  after (extract_column_in line st) =
  set_lines_read (g_lines_read st + 1)%Z st.
Proof.
  rewrite extract_column_in_unfold. cbv zeta.
  repeat (match goal with
          | |- context [match ?x with Ok _ => _ | Raise _ => _ end] =>
              destruct x; [|reflexivity]
          end).
  match goal with
  | |- context [column_in ?a ?b ?c ?d ?e] =>
      destruct (column_in_cases a b c d e) as (Ha & _)
  end.
  destruct (_ =? 0)%Z; [destruct (PyTime.printable _)|]; cbn; auto.
Qed.

Lemma extract_column_in_row_events (line : string) (st : BackupReader) :
  Forall row_event (trace (extract_column_in line st)).
Proof.
  rewrite extract_column_in_unfold. cbv zeta.
  repeat (match goal with
          | |- context [match ?x with Ok _ => _ | Raise _ => _ end] =>
              destruct x; [|constructor]
          end).
  match goal with
  | |- context [column_in ?a ?b ?c ?d ?e] =>
      assert (Hc : Forall row_event (trace (column_in a b c d e)))
        by (destruct (column_in_cases a b c d e)
              as (_ & [(e' & _ & Ht)|[(_ & Ht)|(p & _ & Ht)]]);
            rewrite Ht; repeat constructor)
  end.
  destruct (_ =? 0)%Z; [destruct (PyTime.printable _)|]; cbn.
  - constructor; [exact I|exact Hc].
  - constructor.
  - exact Hc.
Qed.

Lemma extract_column_in_failure (line : string) (st : BackupReader) :
  row_decode_failure st line ->
  exists e, extract_column_in line st =
            mkOutcome (Raise e) (set_lines_read (g_lines_read st + 1)%Z st) [].
Proof.
  intros Hf. rewrite extract_column_in_unfold. cbv zeta.
  unfold row_decode_failure in Hf. cbv zeta in Hf.
  destruct (getitem _ (g_col_timestamp st)) as [ts|e] eqn:E1; [|eauto].
  destruct (getitem _ (g_col_tzoffset st)) as [tz|e] eqn:E2; [|eauto].
  destruct (getitem _ (g_col_raw st)) as [rp|e] eqn:E3; [|eauto].
  destruct (parse_timestamp ts) as [t0|e] eqn:E4; [|eauto].
  destruct (PyInt.int tz) as [n|e] eqn:E5; [|eauto].
  destruct (PyTime.timedelta_seconds n) as [d|e] eqn:E6; [|eauto].
  destruct (PyHex.fromhex _) as [raw|e] eqn:E7; [|eauto].
  exfalso.
  destruct Hf as [(e & H)|[(e & H)|[(e & H)|[(ts' & e & H & H')
                 |(rp' & e & H & H')]]]]; congruence.
Qed.

Lemma completed_line_first (line : string) :
  PyStr.startswith "-- Completed" line = true ->
  PyStr.startswith "COPY " line = false
  /\ (String.eqb line "\." || String.eqb line "") = false.
Proof.
  unfold PyStr.startswith. destruct line as [|c s]; [discriminate|].
  cbn [String.prefix].
  destruct (Ascii.ascii_dec "-" c) as [E|E]; [subst c|discriminate].
  intros _. split; reflexivity.
Qed.

(** C1, as the code has it.  While a table is open, a row that cannot be
    decoded (a required cell missing, a timestamp that parses in neither
    format, a packet that is no hex text) is counted and then ends the
    whole run: the exception leaves [read_compressed_xz], nothing is
    logged or queued for the row, and the lines after it stay unread. *)
Theorem row_decode_failure_aborts
        (line_raw : string) (st : BackupReader) (rest : list string) :
  g_read_rows st = true ->
  PyStr.is_ascii line_raw = true ->
  PyStr.strip line_raw <> "\." ->
  PyStr.strip line_raw <> "" ->
  row_decode_failure st (PyStr.strip line_raw) ->
  exists e,
    read (line_raw :: rest) st =
    mkRun (Aborted e) rest (set_lines_read (g_lines_read st + 1)%Z st) [].
Proof.
  intros Hr Ha H1 H2 Hf.
  destruct (extract_column_in_failure _ _ Hf) as [e He].
  exists e. cbn [read_compressed_xz].
  rewrite (loop_body_reading _ _ Hr Ha). cbv zeta.
  apply String.eqb_neq in H1, H2. rewrite H1, H2. cbn [orb].
  rewrite He. reflexivity.
Qed.


Lemma timedelta_seconds_Ok (n d : Z) :
  PyTime.timedelta_seconds n = Ok d -> d = n.
Proof.
  unfold PyTime.timedelta_seconds. destruct (_ && _); congruence.
Qed.

Lemma column_in_time (table_name : option string) (row_num : Z)
      (t : PyTime.datetime) (raw : PyHex.bytes) (st : BackupReader) :
  Forall (time_field_is t) (trace (column_in table_name row_num t raw st)).
Proof.
  destruct (column_in_cases table_name row_num t raw st)
    as (_ & [(e & _ & Ht)|[(_ & Ht)|(p & _ & Ht)]]);
    rewrite Ht; repeat constructor.
Qed.

(** C5.  The packet handed to the dispatcher is the hex decoding of the
    raw-packet cell without its first three characters: if that text is
    no hex text the row raises and nothing is dispatched, and if the row
    succeeds the dispatcher was called with exactly those bytes.  The
    cell written backslash, backslash, x, 00112233 loses the two
    backslashes and the x, and decodes to the bytes 00 11 22 33. *)
Theorem raw_packet_decoding
        (line : string) (st : BackupReader) (rp : string) :
  getitem (PyStr.split tab line) (g_col_raw st) = Ok rp ->
  (forall e, PyHex.fromhex (PyStr.slice_from 3 rp) = Raise e ->
     exists e',
       extract_column_in line st =
       mkOutcome (Raise e') (set_lines_read (g_lines_read st + 1)%Z st) [])
  /\ (value (extract_column_in line st) = Ok tt ->
      exists raw t,
        PyHex.fromhex (PyStr.slice_from 3 rp) = Ok raw
        /\ value (column_in (g_table_name st) (g_lines_read st + 1)%Z t raw
                    (set_lines_read (g_lines_read st + 1)%Z st)) = Ok tt
        /\ (trace (extract_column_in line st) =
            trace (column_in (g_table_name st) (g_lines_read st + 1)%Z t raw
                     (set_lines_read (g_lines_read st + 1)%Z st))
            \/ trace (extract_column_in line st) =
               Log (LogReadLines (g_lines_read st + 1)%Z t)
               :: trace (column_in (g_table_name st) (g_lines_read st + 1)%Z
                           t raw
                           (set_lines_read (g_lines_read st + 1)%Z st))))
  /\ PyStr.slice_from 3 "\\x00112233" = "00112233"
  /\ PyHex.fromhex (PyStr.slice_from 3 "\\x00112233")
     = Ok [Byte.x00; Byte.x11; Byte.x22; Byte.x33].
Proof.
  intros Hrp. split; [|split; [|split; reflexivity]].
  - intros e He. apply extract_column_in_failure.
    unfold row_decode_failure. cbv zeta. do 4 right. eauto.
  - rewrite extract_column_in_unfold. cbv zeta. rewrite Hrp.
    destruct (getitem _ (g_col_timestamp st)) as [ts|e]; [|discriminate].
    destruct (getitem _ (g_col_tzoffset st)) as [tz|e]; [|discriminate].
    destruct (parse_timestamp ts) as [t0|e]; [|discriminate].
    destruct (PyInt.int tz) as [n|e]; [|discriminate].
    destruct (PyTime.timedelta_seconds n) as [d|e]; [|discriminate].
    destruct (PyHex.fromhex _) as [raw|e]; [|discriminate].
    destruct (_ =? 0)%Z; [destruct (PyTime.printable _)|];
      cbn [value trace]; intros Hv; try discriminate;
      exists raw, (PyTime.replace_tzinfo t0 (PyTime.tzoffset d)); auto.
Qed.

(** C7.  When the tzoffset cell reads as the integer [n] and the
    timestamp cell parses to [t0], every time the row logs or queues is
    [t0] with the fixed offset [n] attached: the offset is [n] itself and
    the calendar fields are those of [t0], unconverted; and when the
    remaining steps succeed the dispatcher is called with that time.
    The cell 46800 reads as 46800 seconds, that is 13 hours, and 43200
    as 12 hours. *)
Theorem tzoffset_is_fixed_offset
        (line : string) (st : BackupReader) (ts tz : string)
        (t0 : PyTime.datetime) (n : Z) :
  getitem (PyStr.split tab line) (g_col_timestamp st) = Ok ts ->
  parse_timestamp ts = Ok t0 ->
  getitem (PyStr.split tab line) (g_col_tzoffset st) = Ok tz ->
  PyInt.int tz = Ok n ->
  Forall (time_field_is (PyTime.replace_tzinfo t0 (Some n)))
         (trace (extract_column_in line st))
  /\ PyTime.tzinfo (PyTime.replace_tzinfo t0 (Some n)) = Some n
  /\ PyTime.replace_tzinfo t0 (Some n) =
     PyTime.mkDatetime (PyTime.year t0) (PyTime.month t0) (PyTime.day t0)
                       (PyTime.hour t0) (PyTime.minute t0)
                       (PyTime.second t0) (PyTime.microsecond t0) (Some n)
  /\ (forall rp raw,
        getitem (PyStr.split tab line) (g_col_raw st) = Ok rp ->
        PyTime.timedelta_seconds n = Ok n ->
        PyHex.fromhex (PyStr.slice_from 3 rp) = Ok raw ->
        ((g_lines_read st + 1) mod LOG_INTERVAL_TABLE =? 0)%Z = false ->
        extract_column_in line st =
        column_in (g_table_name st) (g_lines_read st + 1)%Z
                  (PyTime.replace_tzinfo t0 (Some n)) raw
                  (set_lines_read (g_lines_read st + 1)%Z st))
  /\ PyInt.int "46800" = Ok 46800%Z /\ (46800 = 13 * 3600)%Z
  /\ PyInt.int "43200" = Ok 43200%Z /\ (43200 = 12 * 3600)%Z.
Proof.
  intros Hts Ht0 Htz Hn.
  split; [|split; [reflexivity|split; [reflexivity|split]]].
  - rewrite extract_column_in_unfold. cbv zeta. rewrite Hts, Htz, Ht0, Hn.
    destruct (getitem _ (g_col_raw st)) as [rp|e]; [|constructor].
    destruct (PyTime.timedelta_seconds n) as [d|e] eqn:Ed; [|constructor].
    apply timedelta_seconds_Ok in Ed. subst d.
    destruct (PyHex.fromhex _) as [raw|e]; [|constructor].
    unfold PyTime.tzoffset.
    pose proof (column_in_time (g_table_name st) (g_lines_read st + 1)%Z
                  (PyTime.replace_tzinfo t0 (Some n)) raw
                  (set_lines_read (g_lines_read st + 1)%Z st)) as Hc.
    destruct (_ =? 0)%Z; [destruct (PyTime.printable _)|]; cbn [trace].
    + constructor; [reflexivity|exact Hc].
    + constructor.
    + exact Hc.
  - intros rp raw Hrp Hd Hraw Hmod.
    rewrite extract_column_in_unfold. cbv zeta.
    rewrite Hts, Htz, Hrp, Ht0, Hn, Hd, Hraw, Hmod. reflexivity.
  - repeat split; reflexivity.
Qed.

End ReaderFacts.

(** ** The two formats of a timestamp *)

Lemma strptime_raises_ValueError (s : string) (f : PyTime.format) (e : exn) :
  PyTime.strptime s f = Raise e -> e = ValueError.
Proof.
  unfold PyTime.strptime.
  destruct (PyTime.p_format f s) as [|[[[[[[[y m] d] hh] mm] ss] us] r] l];
    [congruence|].
  destruct r; [|congruence].
  destruct (PyTime.valid_fields _ _ _ _ _ _ _); congruence.
Qed.

(** C8.  A timestamp is first parsed with the format that has fractional
    seconds; when that succeeds its result is the timestamp, and only when
    it fails is the format without them tried, whose result then decides.
    The two example texts both parse, to the same second of the same day,
    with 123456 and 0 microseconds. *)
Theorem timestamp_two_formats (s : string) :
  (forall d, PyTime.strptime s PyTime.fmt_micro = Ok d ->
             parse_timestamp s = Ok d)
  /\ (forall e, PyTime.strptime s PyTime.fmt_micro = Raise e ->
                parse_timestamp s = PyTime.strptime s PyTime.fmt_seconds)
  /\ parse_timestamp "2020-01-01 00:00:00.123456"
     = Ok (PyTime.mkDatetime 2020 1 1 0 0 0 123456 None)
  /\ PyTime.strptime "2020-01-01 00:00:00" PyTime.fmt_micro = Raise ValueError
  /\ parse_timestamp "2020-01-01 00:00:00"
     = Ok (PyTime.mkDatetime 2020 1 1 0 0 0 0 None).
Proof.
  split; [|split; [|repeat split; vm_compute; reflexivity]].
  - intros d Hd. unfold parse_timestamp. now rewrite Hd.
  - intros e He. unfold parse_timestamp.
    rewrite (strptime_raises_ValueError _ _ _ He) in He. now rewrite He.
Qed.

(** ** The claims on concrete input *)

(** The run stops at a row with too few cells: the row after it is never
    read, and nothing is logged or queued for either. *)
Lemma row_failure_stops_run :
  sample_run [dc_start; nl "garbage"; dc_row; nl "\."] =
  mkRun (Aborted IndexError) [dc_row; nl "\."]
        (mkBackupReader (Some 2%nat) (Some 0%nat) (Some 1%nat) 1 true
                        (Some "dc_status"))
        [Log (LogBeginTable (Some "dc_status"));
         Log (LogColumns "timestamp,tzoffset,raw_packet");
         Log (LogStartTable (Some "dc_status"))].
Proof. vm_compute. reflexivity. Qed.

Lemma row_decode_failure_aborts_witness :
  exists e,
    read_compressed_xz sample_decoder sample_topics
      [nl "garbage"; dc_row] dc_open =
    mkRun (Aborted e) [dc_row] (set_lines_read (g_lines_read dc_open + 1)%Z dc_open) [].
Proof.
  apply (row_decode_failure_aborts sample_decoder sample_topics
           (nl "garbage") dc_open [dc_row]).
  - reflexivity.
  - reflexivity.
  - vm_compute. discriminate.
  - vm_compute. discriminate.
  - right. left. exists IndexError. reflexivity.
Defined.

Lemma bounded_queue_contract_witness :
  let h := BoundedQueue.schedule 2
             [BoundedQueue.Enqueue 1%nat; BoundedQueue.Enqueue 2%nat;
              BoundedQueue.Enqueue 3%nat; BoundedQueue.Dequeue;
              BoundedQueue.Enqueue 3%nat] in
  BoundedQueue.length (BoundedQueue.queue h) <= 2
  /\ BoundedQueue.enqueued h =
     BoundedQueue.dequeued h ++ BoundedQueue.items (BoundedQueue.queue h).
Proof.
  pose proof (bounded_queue_contract 2
                [BoundedQueue.Enqueue 1%nat; BoundedQueue.Enqueue 2%nat;
                 BoundedQueue.Enqueue 3%nat; BoundedQueue.Dequeue;
                 BoundedQueue.Enqueue 3%nat]) as H.
  cbv zeta in H. destruct H as (_ & Hl & _ & _ & _ & _ & _ & Hf & _).
  split; [exact Hl|exact Hf].
Defined.

Lemma skipped_table_rows_not_dispatched_witness :
  Forall no_load_queue
         (events (sample_run [foo_start; dc_row; nl "\."; end_of_backup])).
Proof.
  destruct (skipped_table_rows_not_dispatched sample_decoder sample_topics
              foo_start ("foo", "a, timestamp, raw_packet") init
              [dc_row; nl "\."; end_of_backup] [])
    as (_ & _ & _ & H & _).
  - reflexivity.
  - reflexivity.
  - reflexivity.
  - repeat constructor.
  - exact H.
Defined.



Lemma raw_packet_decoding_witness :
  PyHex.fromhex (PyStr.slice_from 3 "\\x00112233")
  = Ok [Byte.x00; Byte.x11; Byte.x22; Byte.x33]
  /\ exists raw t,
       PyHex.fromhex (PyStr.slice_from 3 "\\x00112233") = Ok raw
       /\ trace (_extract_column_in sample_decoder sample_topics
                   (PyStr.strip dc_row) dc_open) =
          trace (_column_in sample_decoder sample_topics
                   (Some "dc_status") 1 t raw (set_lines_read 1 dc_open)).
Proof.
  destruct (raw_packet_decoding sample_decoder sample_topics
              (PyStr.strip dc_row) dc_open "\\x00112233")
    as (_ & H & _ & Hex); [reflexivity|].
  split; [exact Hex|].
  destruct H as (raw & t & Hraw & _ & [Ht|Ht]); [reflexivity| |].
  - exists raw, t. split; [exact Hraw|exact Ht].
  - vm_compute in Ht. discriminate.
Defined.


Lemma tzoffset_is_fixed_offset_witness :
  _extract_column_in sample_decoder sample_topics (PyStr.strip dc_row) dc_open
  = _column_in sample_decoder sample_topics (Some "dc_status") 1
      (PyTime.mkDatetime 2020 1 1 0 0 0 123456 (Some 46800%Z))
      [Byte.x00; Byte.x11; Byte.x22; Byte.x33] (set_lines_read 1 dc_open).
Proof.
  destruct (tzoffset_is_fixed_offset sample_decoder sample_topics
              (PyStr.strip dc_row) dc_open
              "2020-01-01 00:00:00.123456" "46800"
              (PyTime.mkDatetime 2020 1 1 0 0 0 123456 None) 46800%Z)
    as (_ & _ & _ & H & _);
    [reflexivity|reflexivity|reflexivity|reflexivity|].
  apply (H "\\x00112233"); reflexivity.
Defined.

Lemma timestamp_two_formats_witness :
  parse_timestamp "2020-01-01 00:00:00"
  = PyTime.strptime "2020-01-01 00:00:00" PyTime.fmt_seconds
  /\ parse_timestamp "2020-01-01 00:00:00.123456"
     = Ok (PyTime.mkDatetime 2020 1 1 0 0 0 123456 None).
Proof.
  destruct (timestamp_two_formats "2020-01-01 00:00:00")
    as (_ & H & Hex & _).
  split; [apply (H ValueError); reflexivity|exact Hex].
Defined.

Lemma dispatcher_measurement_name_witness :
  _column_in sample_decoder sample_topics (Some "mx_status") 50
    (PyTime.mkDatetime 2020 1 1 0 0 0 0 (Some 43200%Z)) [Byte.x01]
    dc_open
  = mkOutcome (Ok tt) dc_open
      [LoadQueue "dc_status"
                 (PyTime.mkDatetime 2020 1 1 0 0 0 0 (Some 43200%Z))
                 [Byte.x01] true].
Proof.
  destruct (dispatcher_measurement_name sample_decoder sample_topics)
    as (_ & H & _).
  apply (H 50%Z _ [Byte.x01] dc_open [Byte.x01]). reflexivity.
Defined.

Lemma skipped_table_leaves_marks_witness :
  after (loop_body sample_decoder sample_topics foo_start dc_open_idle)
  = mkBackupReader (Some 2%nat) (Some 1%nat) (Some 1%nat) 7 false (Some "foo").
Proof.
  destruct (skipped_table_leaves_marks sample_decoder sample_topics
              foo_start ("foo", "a, timestamp, raw_packet") dc_open_idle
              [dc_row])
    as (_ & Hafter & _);
    [reflexivity|reflexivity|reflexivity|repeat constructor|].
  rewrite Hafter. reflexivity.
Defined.


(** With a single backslash before the x the first three characters take
    a digit with them, and what is left is no hex text. *)
Lemma single_backslash_packet_rejected :
  PyStr.slice_from 3 "\x00112233" = "0112233"
  /\ PyHex.fromhex (PyStr.slice_from 3 "\x00112233") = Raise ValueError.
Proof. split; reflexivity. Qed.

(** * Further properties of the reader *)

Section ReaderMore.
Context {Payload : Type}.
Variable decoder : PyMateDecoder Payload.
Variable topics : MqttTopics.

Local Abbreviation column_in := (_column_in decoder topics).
Local Abbreviation extract_column_in := (_extract_column_in decoder topics).
Local Abbreviation body := (loop_body decoder topics).
Local Abbreviation read := (read_compressed_xz decoder topics).

(** X1.  A line with a byte outside ASCII ends the run at that line,
    whether a table is open or not: the decoding error leaves
    [read_compressed_xz] before the line is looked at, no field changes
    and nothing is logged. *)
Theorem non_ascii_line_aborts
        (line_raw : string) (st : BackupReader) (rest : list string) :
  PyStr.is_ascii line_raw = false ->
  read (line_raw :: rest) st = mkRun (Aborted UnicodeDecodeError) rest st [].
Proof.
  intros Ha. cbn [read_compressed_xz].
  unfold loop_body, decode_ascii. rewrite Ha. rewrite bind_lift_raise.
  reflexivity.
Qed.

(** X2.  A table start that declares the three required columns, read
    while no table is open, sets every field of the reader: what the
    reader remembered from earlier tables, skipped ones included, has no
    influence on the outcome. *)
Theorem valid_table_start_resets_reader
        (line_raw : string) (st st' : BackupReader) :
  g_read_rows st = false ->
  g_read_rows st' = false ->
  valid_table_start line_raw = true ->
  body line_raw st = body line_raw st'
  /\ value (body line_raw st) = Ok Next
  /\ g_read_rows (after (body line_raw st)) = true
  /\ g_lines_read (after (body line_raw st)) = 0%Z.
Proof.
  intros Hr Hr' Hv. rewrite (loop_body_seeking decoder topics _ _ Hr).
  rewrite (loop_body_seeking decoder topics _ _ Hr').
  unfold valid_table_start in Hv.
  destruct (table_start line_raw) as [m|]; [|discriminate].
  destruct (required_lookup_cases (snd m))
    as [(_ & D)|[(i & _ & _ & D)|[(i & j & _ & _ & _ & D)
        |(i & j & k & L1 & L2 & L3 & _)]]]; try congruence.
  cbv zeta.
  rewrite (extract_start_table_ok m st i j k L1 L2 L3).
  rewrite (extract_start_table_ok m st' i j k L1 L2 L3).
  cbn. auto.
Qed.

(** X3.  While no table is open, lines that are neither a table start
    nor the end-of-backup mark are passed over, COPY lines that the
    pattern rejects among them: the run reads them all, the fields stay
    as they were and nothing is logged or queued. *)
Theorem ignored_lines_leave_no_trace
        (lines : list string) (st : BackupReader) :
  g_read_rows st = false ->
  Forall (fun l => ignored_line l = true) lines ->
  read lines st = mkRun Exhausted [] st [].
Proof.
  intros Hr Hall. induction Hall as [|l lines Hl _ IH]; [reflexivity|].
  cbn [read_compressed_xz]. rewrite (loop_body_seeking decoder topics _ _ Hr).
  unfold ignored_line in Hl. apply andb_true_iff in Hl as [Hl Hc].
  apply andb_true_iff in Hl as [Ha Ht]. apply negb_true_iff in Hc.
  destruct (table_start l); [discriminate|]. rewrite Ha, Hc.
  destruct (PyStr.startswith "COPY " _); cbn [value after trace];
    rewrite IH; reflexivity.
Qed.



Lemma extract_column_in_aware (line : string) (st : BackupReader) :
  Forall time_is_aware (trace (extract_column_in line st)).
Proof.
  rewrite extract_column_in_unfold. cbv zeta.
  repeat (match goal with
          | |- context [match ?x with Ok _ => _ | Raise _ => _ end] =>
              destruct x; [|constructor]
          end).
  match goal with
  | |- context [_column_in decoder topics ?a ?b ?c ?d ?e] =>
      assert (Hc : Forall time_is_aware
                          (trace (_column_in decoder topics a b c d e)))
        by (destruct (column_in_cases decoder topics a b c d e)
              as (_ & [(e' & _ & Ht)|[(_ & Ht)|(p & _ & Ht)]]);
            rewrite Ht; repeat constructor; discriminate)
  end.
  destruct (_ =? 0)%Z; [destruct (PyTime.printable _)|]; cbn.
  - constructor; [discriminate|exact Hc].
  - constructor.
  - exact Hc.
Qed.

(** X5.  No run ever logs or queues a time without a zone: every time
    handed to [load_queue], and every time in a progress report, has the
    offset of its row attached. *)
Theorem queued_times_are_aware (open_file : list string) (st : BackupReader) :
  Forall time_is_aware (events (read open_file st)).
Proof.
  revert st. induction open_file as [|l rest IH]; intros st; cbn.
  - constructor.
  - assert (H : Forall time_is_aware (trace (body l st))).
    { destruct (g_read_rows st) eqn:Hr.
      - destruct (PyStr.is_ascii l) eqn:Ha.
        + rewrite (loop_body_reading decoder topics _ _ Hr Ha). cbv zeta.
          destruct (_ || _); cbn; [repeat constructor|].
          apply extract_column_in_aware.
        + unfold loop_body, decode_ascii. rewrite Ha. cbn. constructor.
      - rewrite (loop_body_seeking decoder topics _ _ Hr).
        destruct (table_start l) as [m|].
        + pose proof (@extract_start_table_cases Payload m st) as Hc.
          cbv zeta in Hc |- *.
          destruct (_extract_start_table m st) as [v st1 t1].
          cbn [value after trace] in Hc |- *.
          destruct Hc as [(_ & Hv & Ht & _)|(_ & (key & Hv & _ & _ & Ht) & _)];
            subst v t1; cbn; repeat constructor.
        + destruct (PyStr.is_ascii l); [|constructor].
          destruct (PyStr.startswith "COPY " _); [constructor|].
          destruct (PyStr.startswith "-- Completed" _); repeat constructor. }
    destruct (loop_body decoder topics l st) as [[[]|e] st1 t1]; cbn in *;
      [|exact H|exact H].
    apply Forall_app. auto.
Qed.


Lemma set_lines_read_twice (a b : Z) (st : BackupReader) :
  set_lines_read a (set_lines_read b st) = set_lines_read a st.
Proof. reflexivity. Qed.

Lemma data_rows_counted (rows : list string) (st : BackupReader) :
  g_read_rows st = true ->
  Forall (fun l => data_line l = true) rows ->
  stop (read rows st) = Exhausted ->
  final (read rows st) =
  set_lines_read (g_lines_read st + Z.of_nat (length rows))%Z st.
Proof.
  intros Hr Hall. revert st Hr.
  induction Hall as [|l rows Hl _ IH]; intros st Hr Hs.
  - cbn. rewrite Z.add_0_r. now destruct st.
  - cbn [read_compressed_xz] in Hs |- *.
    unfold data_line in Hl. apply andb_true_iff in Hl as [Ha Hd].
    apply negb_true_iff in Hd.
    rewrite (loop_body_reading decoder topics _ _ Hr Ha) in Hs |- *.
    cbv zeta in Hs |- *. rewrite Hd in Hs |- *.
    cbn [value after trace] in Hs |- *.
    rewrite extract_column_in_after in Hs |- *.
    destruct (value (extract_column_in (PyStr.strip l) st)) as [[]|e];
      [|discriminate].
    cbn [stop final] in Hs |- *.
    rewrite (IH (set_lines_read (g_lines_read st + 1)%Z st) Hr Hs).
    cbn [g_lines_read set_lines_read].
    rewrite set_lines_read_twice. f_equal.
    change (length (l :: rows)) with (S (length rows)). lia.
Qed.

(** X7.  When the rows of an open table are all read without an
    exception, the terminator line closes the table and the number of
    rows reported is the number counted before the table plus the number
    of lines between the start and the terminator, whether or not they
    were queued; only the row flag and the count have changed. *)
Theorem rows_read_is_number_of_lines
        (rows : list string) (term : string) (st : BackupReader) :
  g_read_rows st = true ->
  Forall (fun l => data_line l = true) rows ->
  terminator_line term = true ->
  stop (read rows st) = Exhausted ->
  read (rows ++ [term]) st =
  mkRun Exhausted []
        (set_read_rows false
           (set_lines_read (g_lines_read st + Z.of_nat (length rows))%Z st))
        (events (read rows st)
         ++ [Log (LogEndTable (g_table_name st));
             Log (LogReadRows (g_lines_read st + Z.of_nat (length rows))%Z)]).
Proof.
  intros Hr Hall Ht Hs.
  rewrite (read_app decoder topics). cbv zeta. rewrite Hs.
  rewrite (data_rows_counted rows st Hr Hall Hs).
  cbn [read_compressed_xz].
  unfold terminator_line in Ht. apply andb_true_iff in Ht as [Ha Hterm].
  rewrite (loop_body_reading decoder topics term
             (set_lines_read (g_lines_read st + Z.of_nat (length rows))%Z st)
             Hr Ha).
  cbv zeta. rewrite Hterm. reflexivity.
Qed.

End ReaderMore.

(** * Further properties of the primitives as the reader uses them *)

Lemma split_length (sep : ascii) (s : string) :
  length (PyStr.split sep s) = S (count_char sep s).
Proof.
  induction s as [|c s IH]; [reflexivity|]. cbn [PyStr.split count_char].
  destruct (Ascii.eqb c sep); cbn [length]; [now rewrite IH|].
  destruct (PyStr.split sep s) as [|h t]; [discriminate|].
  cbn [length] in *. lia.
Qed.

(** X8.  A row has one cell more than it has tabs, so the cell at a
    column index exists exactly when the index is at most the number of
    tabs of the stripped line; beyond that the row raises [IndexError]. *)
Theorem cell_exists_iff_enough_tabs (line : string) (i : nat) :
  (i <= count_char tab line ->
   exists cell, getitem (PyStr.split tab line) (Some i) = Ok cell)
  /\ (count_char tab line < i ->
      getitem (PyStr.split tab line) (Some i) = Raise IndexError).
Proof.
  pose proof (split_length tab line) as Hlen. unfold getitem. split; intros H.
  - destruct (PyStr.split tab line !! i) as [cell|] eqn:E; [now exists cell|].
    apply lookup_ge_None in E. lia.
  - rewrite (proj2 (lookup_ge_None _ _)); [reflexivity|lia].
Qed.

Lemma fromhex_opt_length_aux (n : nat) :
  forall s bs,
    String.length s <= n ->
    forallb (fun c => negb (PyStr.c_isspace c)) (list_ascii_of_string s) = true ->
    PyHex.fromhex_opt s = Some bs ->
    String.length s = 2 * length bs.
Proof.
  induction n as [|n IH]; intros s bs Hn Hw Hs.
  - destruct s; [|cbn in Hn; lia]. cbn in Hs. injection Hs as <-. reflexivity.
  - destruct s as [|c [|d r]].
    + cbn in Hs. injection Hs as <-. reflexivity.
    + cbn in Hw, Hs. destruct (PyStr.c_isspace c); [discriminate|].
      destruct (PyHex.hexval c); discriminate.
    + cbn [list_ascii_of_string forallb] in Hw.
      apply andb_true_iff in Hw as [Hc Hw]. apply negb_true_iff in Hc.
      apply andb_true_iff in Hw as [_ Hw].
      cbn [PyHex.fromhex_opt] in Hs. rewrite Hc in Hs.
      destruct (PyHex.hexval c); [|discriminate].
      destruct (PyHex.hexval d); [|discriminate].
      destruct (PyHex.fromhex_opt r) as [bs'|] eqn:E; [|discriminate].
      cbn in Hs. injection Hs as <-.
      cbn [String.length] in Hn |- *. cbn [length].
      rewrite (IH r bs'); [lia|lia|exact Hw|exact E].
Qed.

(** X9.  A hex text without white space decodes only when its length is
    even, and then to half as many bytes as it has characters. *)
Theorem fromhex_length (s : string) (bs : PyHex.bytes) :
  forallb (fun c => negb (PyStr.c_isspace c)) (list_ascii_of_string s) = true ->
  PyHex.fromhex s = Ok bs ->
  String.length s = 2 * length bs.
Proof.
  intros Hw Hs. unfold PyHex.fromhex in Hs.
  destruct (PyHex.fromhex_opt s) as [bs'|] eqn:E; [|discriminate].
  cbn in Hs. injection Hs as <-.
  now apply (fromhex_opt_length_aux (String.length s)).
Qed.

Lemma strptime_valid (s : string) (f : PyTime.format) (d : PyTime.datetime) :
  PyTime.strptime s f = Ok d ->
  PyTime.valid_fields (PyTime.year d) (PyTime.month d) (PyTime.day d)
                      (PyTime.hour d) (PyTime.minute d) (PyTime.second d)
                      (PyTime.microsecond d) = true
  /\ PyTime.tzinfo d = None.
Proof.
  unfold PyTime.strptime.
  destruct (PyTime.p_format f s) as [|[[[[[[[y m] dd] hh] mm] ss] us] r] l];
    [discriminate|].
  destruct r; [|discriminate].
  destruct (PyTime.valid_fields y m dd hh mm ss us) eqn:E; [|discriminate].
  intros [= <-]. cbn. auto.
Qed.


(** Every character of the text satisfies [p]. *)
Lemma span_all (p : ascii -> bool) (s : string) :
  forallb p (list_ascii_of_string s) = true ->
  PyStr.span p s = (s, EmptyString).
Proof.
  induction s as [|c s IH]; [reflexivity|]. simpl.
  intros H. apply andb_true_iff in H as [Hc Hs]. now rewrite Hc, (IH Hs).
Qed.

Lemma span_app (p : ascii -> bool) (a b : string) :
  forallb p (list_ascii_of_string a) = true ->
  match b with String c _ => p c = false | EmptyString => True end ->
  PyStr.span p (a +:+ b) = (a, b).
Proof.
  intros Ha Hb. induction a as [|x a IH]; simpl.
  - destruct b as [|c b]; [reflexivity|]. simpl. now rewrite Hb.
  - simpl in Ha. apply andb_true_iff in Ha as [Hx Ha].
    now rewrite Hx, (IH Ha).
Qed.

Lemma strip_prefix_app (p s : string) :
  PyStr.strip_prefix p (p +:+ s) = Some s.
Proof.
  induction p as [|c p IH]; simpl; [reflexivity|].
  now rewrite Ascii.eqb_refl.
Qed.

Lemma before_last_absent (x : ascii) (t : string) :
  forallb (fun c => negb (Ascii.eqb c x)) (list_ascii_of_string t) = true ->
  PyStr.before_last x t = None.
Proof.
  induction t as [|c t IH]; [reflexivity|]. simpl.
  intros H. apply andb_true_iff in H as [Hc Ht]. apply negb_true_iff in Hc.
  now rewrite (IH Ht), Hc.
Qed.

Lemma before_last_app (x : ascii) (a t : string) :
  forallb (fun c => negb (Ascii.eqb c x)) (list_ascii_of_string t) = true ->
  PyStr.before_last x (a +:+ String x t) = Some a.
Proof.
  intros Ht. induction a as [|c a IH]; simpl.
  - now rewrite (before_last_absent x t Ht), Ascii.eqb_refl.
  - now rewrite IH.
Qed.

Lemma forallb_string_app (p : ascii -> bool) (a b : string) :
  forallb p (list_ascii_of_string (a +:+ b)) =
  forallb p (list_ascii_of_string a) && forallb p (list_ascii_of_string b).
Proof.
  induction a as [|c a IH]; [reflexivity|]. simpl. now rewrite IH, andb_assoc.
Qed.

(** X11.  The table-start pattern reads a line of the form the dump
    writes back into its parts: the COPY word, a name of word characters,
    a blank, the column list in parentheses, and a rest without a closing
    parenthesis.  The groups are the name and the column list, also when
    the column list itself contains parentheses. *)
Theorem match_copy_well_formed (name cols rest : string) :
  name <> EmptyString ->
  forallb PyStr.isword (list_ascii_of_string name) = true ->
  forallb (fun c => negb (Ascii.eqb c PyRe.newline))
          (list_ascii_of_string (cols +:+ rest)) = true ->
  forallb (fun c => negb (Ascii.eqb c ")"))
          (list_ascii_of_string rest) = true ->
  PyRe.match_copy ("COPY " +:+ name +:+ " (" +:+ cols +:+ ")" +:+ rest)
  = Some (name, cols).
Proof.
  intros Hne Hw Hnl Hp. unfold PyRe.match_copy.
  rewrite strip_prefix_app. cbn [mbind option_bind].
  rewrite (span_app PyStr.isword name _ Hw); [|reflexivity].
  destruct name as [|n0 name']; [congruence|].
  rewrite strip_prefix_app. cbn [mbind option_bind].
  rewrite forallb_string_app in Hnl. apply andb_true_iff in Hnl as [Hc Hr].
  rewrite span_all.
  2:{ rewrite forallb_string_app.
      change (")" +:+ rest) with (String ")" rest).
      cbn [list_ascii_of_string forallb]. rewrite Hc, Hr. reflexivity. }
  change (")" +:+ rest) with (String ")" rest).
  rewrite (before_last_app ")" cols rest Hp). reflexivity.
Qed.

(** ** The two formats never both apply *)

Lemma string_app_assoc (a b c : string) : (a +:+ b) +:+ c = a +:+ (b +:+ c).
Proof.
  induction a as [|x a IH]; [reflexivity|].
  change (String x ((a +:+ b) +:+ c) = String x (a +:+ (b +:+ c))).
  now rewrite IH.
Qed.

Lemma in_p_bind {A B} (p : PyTime.parser A) (k : A -> PyTime.parser B)
      (s : string) (x : B * string) :
  In x (PyTime.p_bind p k s) <->
  exists a r, In (a, r) (p s) /\ In x (k a r).
Proof.
  unfold PyTime.p_bind. rewrite in_concat. split.
  - intros (l & Hl & Hx). apply in_map_iff in Hl as ([a r] & <- & Har).
    eauto.
  - intros (a & r & Har & Hx). exists (k a r). split; [|exact Hx].
    apply in_map_iff. now exists (a, r).
Qed.

Lemma consumes_ret {A} (a : A) : consumes_no_dot (PyTime.p_ret a).
Proof.
  intros s v r [[= <- <-]|[]]. now exists EmptyString.
Qed.

Lemma consumes_bind {A B} (p : PyTime.parser A) (k : A -> PyTime.parser B) :
  consumes_no_dot p -> (forall a, consumes_no_dot (k a)) ->
  consumes_no_dot (PyTime.p_bind p k).
Proof.
  intros Hp Hk s v r Hin. apply in_p_bind in Hin as (a & r1 & H1 & H2).
  destruct (Hp _ _ _ H1) as (pre1 & -> & F1).
  destruct (Hk a _ _ _ H2) as (pre2 & -> & F2).
  exists (pre1 +:+ pre2). split; [now rewrite string_app_assoc|].
  rewrite forallb_string_app. now rewrite F1, F2.
Qed.

Lemma consumes_alts {A} (ps : list (PyTime.parser A)) :
  Forall consumes_no_dot ps -> consumes_no_dot (PyTime.p_alts ps).
Proof.
  induction 1 as [|p ps Hp _ IH]; intros s v r Hin; [destruct Hin|].
  cbn in Hin. unfold PyTime.p_alt in Hin. apply in_app_or in Hin as [Hin|Hin].
  - exact (Hp _ _ _ Hin).
  - exact (IH _ _ _ Hin).
Qed.

Lemma consumes_one (c : ascii) (r : string) :
  no_dot c = true ->
  exists pre, String c r = pre +:+ r
              /\ forallb no_dot (list_ascii_of_string pre) = true.
Proof.
  intros Hc. exists (String c EmptyString). split; [reflexivity|].
  simpl. now rewrite Hc.
Qed.

Lemma consumes_lit (c : ascii) :
  no_dot c = true -> consumes_no_dot (PyTime.p_lit c).
Proof.
  intros Hc s v r Hin. unfold PyTime.p_lit in Hin.
  destruct s as [|d s]; [destruct Hin|].
  destruct (Ascii.eqb c d) eqn:E; [|destruct Hin].
  apply Ascii.eqb_eq in E. subst d.
  destruct Hin as [[= _ <-]|[]]. now apply consumes_one.
Qed.

Lemma digit_no_dot (c : ascii) : PyStr.isdigit c = true -> no_dot c = true.
Proof.
  intros H. unfold no_dot. destruct (Ascii.eqb c ".") eqn:E; [|reflexivity].
  apply Ascii.eqb_eq in E. subst c. discriminate.
Qed.

Lemma space_no_dot (c : ascii) : PyStr.isspace c = true -> no_dot c = true.
Proof.
  intros H. unfold no_dot. destruct (Ascii.eqb c ".") eqn:E; [|reflexivity].
  apply Ascii.eqb_eq in E. subst c. discriminate.
Qed.

Lemma consumes_digit (lo hi : N) : consumes_no_dot (PyTime.p_digit lo hi).
Proof.
  intros s v r Hin. unfold PyTime.p_digit in Hin.
  destruct s as [|d s]; [destruct Hin|].
  destruct (PyStr.isdigit d) eqn:Hd; [|destruct Hin].
  destruct (_ && _); [|destruct Hin].
  destruct Hin as [[= _ <-]|[]]. apply consumes_one. now apply digit_no_dot.
Qed.

Lemma consumes_two (a b c d : N) : consumes_no_dot (PyTime.p_two a b c d).
Proof.
  unfold PyTime.p_two.
  apply consumes_bind; [apply consumes_digit|intros x].
  apply consumes_bind; [apply consumes_digit|intros y]. apply consumes_ret.
Qed.

Lemma consumes_digits (n : nat) (acc : Z) :
  consumes_no_dot (PyTime.p_digits n acc).
Proof.
  revert acc. induction n as [|n IH]; intros acc; cbn.
  - apply consumes_ret.
  - apply consumes_bind; [apply consumes_digit|intros d; apply IH].
Qed.

Lemma consumes_ws_star (s : string) (v : unit) (r : string) :
  In (v, r) (PyTime.p_ws_star s) ->
  exists pre, s = pre +:+ r
              /\ forallb no_dot (list_ascii_of_string pre) = true.
Proof.
  induction s as [|c s IH]; cbn.
  - intros [[= _ <-]|[]]. now exists EmptyString.
  - destruct (PyStr.isspace c) eqn:Hc.
    + intros Hin. apply in_app_or in Hin as [Hin|[[= _ <-]|[]]].
      * destruct (IH Hin) as (pre & -> & F). exists (String c pre).
        split; [reflexivity|]. simpl. now rewrite (space_no_dot c Hc), F.
      * now exists EmptyString.
    + intros [[= _ <-]|[]]. now exists EmptyString.
Qed.

Lemma consumes_ws_plus : consumes_no_dot PyTime.p_ws_plus.
Proof.
  intros s v r Hin. unfold PyTime.p_ws_plus in Hin.
  destruct s as [|c s]; [destruct Hin|].
  destruct (PyStr.isspace c) eqn:Hc; [|destruct Hin].
  destruct (consumes_ws_star _ _ _ Hin) as (pre & -> & F).
  exists (String c pre). split; [reflexivity|].
  simpl. now rewrite (space_no_dot c Hc), F.
Qed.

Lemma consumes_seconds : consumes_no_dot PyTime.p_seconds.
Proof.
  unfold PyTime.p_seconds, PyTime.p_Y, PyTime.p_m, PyTime.p_d, PyTime.p_H,
    PyTime.p_M, PyTime.p_S.
  repeat first
    [ apply consumes_ret
    | apply consumes_digits
    | apply consumes_digit
    | apply consumes_two
    | apply consumes_ws_plus
    | apply consumes_lit; reflexivity
    | apply consumes_alts; repeat constructor
    | apply consumes_bind; [|intros ?] ].
Qed.

Lemma timestamp_formats_exclusive (s : string) (d d' : PyTime.datetime) :
  PyTime.strptime s PyTime.fmt_micro = Ok d ->
  PyTime.strptime s PyTime.fmt_seconds = Ok d' ->
  False.
Proof.
  unfold PyTime.strptime. intros Hm Hs.
  destruct (PyTime.p_format PyTime.fmt_seconds s) as [|[v r] l] eqn:Es;
    [discriminate|].
  assert (Hnd : forallb no_dot (list_ascii_of_string s) = true).
  { assert (Hin : In (v, r) (PyTime.p_format PyTime.fmt_seconds s))
      by (rewrite Es; now left).
    cbn [PyTime.p_format] in Hin.
    apply in_p_bind in Hin as (t & r1 & H1 & [[= Hv Hr]|[]]).
    subst v r. destruct t as [[[[[y m] dd] hh] mm] ss].
    destruct r1; [|discriminate].
    destruct (consumes_seconds _ _ _ H1) as (pre & -> & F).
    rewrite forallb_string_app, F. reflexivity. }
  destruct (PyTime.p_format PyTime.fmt_micro s) as [|[v' r'] l'] eqn:Em;
    [discriminate|].
  assert (Hin : In (v', r') (PyTime.p_format PyTime.fmt_micro s))
    by (rewrite Em; now left).
  cbn [PyTime.p_format] in Hin.
  apply in_p_bind in Hin as (t & r1 & H1 & H2).
  apply in_p_bind in H2 as ([] & r2 & H2 & _).
  unfold PyTime.p_lit in H2. destruct r1 as [|c r1]; [destruct H2|].
  destruct (Ascii.eqb "." c) eqn:E; [|destruct H2].
  apply Ascii.eqb_eq in E. subst c.
  destruct (consumes_seconds _ _ _ H1) as (pre & -> & F).
  rewrite forallb_string_app in Hnd. apply andb_true_iff in Hnd as [_ Hnd].
  simpl in Hnd. discriminate.
Qed.

(** X12.  No text is a timestamp in both formats: the one with fractional
    seconds needs a point after the seconds, and the one without accepts
    no point anywhere.  A text that parses in one format is rejected by
    the other, so the order of the two attempts never changes the time
    that is read. *)
Theorem timestamp_formats_disjoint (s : string) (d : PyTime.datetime) :
  (PyTime.strptime s PyTime.fmt_micro = Ok d ->
   PyTime.strptime s PyTime.fmt_seconds = Raise ValueError)
  /\ (PyTime.strptime s PyTime.fmt_seconds = Ok d ->
      PyTime.strptime s PyTime.fmt_micro = Raise ValueError
      /\ parse_timestamp s = Ok d).
Proof.
  split.
  - intros Hm.
    destruct (PyTime.strptime s PyTime.fmt_seconds) as [d'|e] eqn:Es.
    + destruct (timestamp_formats_exclusive s d d' Hm Es).
    + now rewrite (strptime_raises_ValueError _ _ _ Es).
  - intros Hs.
    destruct (PyTime.strptime s PyTime.fmt_micro) as [d'|e] eqn:Em.
    + destruct (timestamp_formats_exclusive s d' d Em Hs).
    + rewrite (strptime_raises_ValueError _ _ _ Em) in Em |- *.
      split; [reflexivity|]. unfold parse_timestamp. now rewrite Em.
Qed.

(** ** The cells at the two ends of a stripped row *)

Lemma lstrip_head (s : string) :
  PyStr.lstrip s = EmptyString
  \/ exists c r, PyStr.lstrip s = String c r /\ PyStr.isspace c = false.
Proof.
  induction s as [|c s IH]; [now left|]. cbn [PyStr.lstrip].
  destruct (PyStr.isspace c) eqn:E; [exact IH|]. right. eauto.
Qed.

Lemma rstrip_head (c : ascii) (r : string) :
  PyStr.isspace c = false ->
  exists r', PyStr.rstrip (String c r) = String c r'.
Proof.
  intros Hc. cbn [PyStr.rstrip]. destruct (PyStr.rstrip r); rewrite ?Hc; eauto.
Qed.

Lemma rstrip_last (s : string) :
  match last (list_ascii_of_string (PyStr.rstrip s)) with
  | Some c => PyStr.isspace c = false
  | None => True
  end.
Proof.
  induction s as [|c s IH]; [exact I|]. cbn [PyStr.rstrip].
  destruct (PyStr.rstrip s) as [|c' r'] eqn:E.
  - destruct (PyStr.isspace c) eqn:Hc; [exact I|exact Hc].
  - exact IH.
Qed.

Lemma split_head (sep c : ascii) (r : string) :
  Ascii.eqb c sep = false ->
  exists h t, PyStr.split sep (String c r) = String c h :: t.
Proof.
  intros Hc. cbn [PyStr.split]. rewrite Hc.
  destruct (PyStr.split sep r); eauto.
Qed.

Lemma split_last_empty (sep : ascii) (s : string) :
  last (PyStr.split sep s) = Some EmptyString ->
  s = EmptyString \/ last (list_ascii_of_string s) = Some sep.
Proof.
  induction s as [|c s IH]; [now left|]. intros H. right.
  cbn [PyStr.split] in H. cbn [list_ascii_of_string].
  pose proof (split_length sep s) as Hlen.
  destruct (Ascii.eqb c sep) eqn:E.
  - apply Ascii.eqb_eq in E. subst c.
    destruct (PyStr.split sep s) as [|h t] eqn:Es; [discriminate|].
    change (last (h :: t) = Some EmptyString) in H.
    destruct (IH H) as [->|Hl]; [reflexivity|].
    destruct (list_ascii_of_string s); [discriminate|exact Hl].
  - destruct (PyStr.split sep s) as [|h t] eqn:Es; [discriminate|].
    destruct t as [|h' t'].
    + discriminate.
    + change (last (h' :: t') = Some EmptyString) in H.
      assert (Hl : last (h :: h' :: t') = Some EmptyString) by exact H.
      destruct (IH Hl) as [->|Hs]; [discriminate|].
      destruct (list_ascii_of_string s); [discriminate|exact Hs].
Qed.

(** X13.  The loop strips a line before it splits it at the tabs, and a
    tab is white space: so neither the first nor the last cell of a row is
    ever empty.  A row whose first or last column is empty in the dump
    loses that cell, and the cells after or before it move or go
    missing. *)
Theorem stripped_row_end_cells (line : string) :
  PyStr.strip line <> EmptyString ->
  hd_error (PyStr.split tab (PyStr.strip line)) <> Some EmptyString
  /\ last (PyStr.split tab (PyStr.strip line)) <> Some EmptyString.
Proof.
  intros Hne. unfold PyStr.strip in *. split.
  - destruct (lstrip_head line) as [E|(c & r & E & Hc)];
      [rewrite E in Hne; now destruct Hne|].
    rewrite E. destruct (rstrip_head c r Hc) as [r' ->].
    assert (Ht : Ascii.eqb c tab = false).
    { destruct (Ascii.eqb c tab) eqn:Et; [|reflexivity].
      apply Ascii.eqb_eq in Et. subst c. discriminate. }
    destruct (split_head tab c r' Ht) as (h & t & ->). discriminate.
  - intros H. apply split_last_empty in H as [H|H]; [contradiction|].
    pose proof (rstrip_last (PyStr.lstrip line)) as Hl. rewrite H in Hl.
    discriminate.
Qed.

(** ** The tokens of a column list *)

Lemma split_parts_no_sep (sep : ascii) (s : string) :
  Forall (fun p => forallb (fun c => negb (Ascii.eqb c sep))
                           (list_ascii_of_string p) = true)
         (PyStr.split sep s).
Proof.
  induction s as [|c s IH]; [repeat constructor|]. cbn [PyStr.split].
  destruct (Ascii.eqb c sep) eqn:E.
  - constructor; [reflexivity|exact IH].
  - destruct (PyStr.split sep s) as [|h t]; [repeat constructor; simpl; now rewrite E|].
    inversion IH as [|? ? Hh Ht]; subst. constructor; [|exact Ht].
    simpl. now rewrite E, Hh.
Qed.

Lemma remove_char_absent (x : ascii) (s : string) :
  forallb (fun c => negb (Ascii.eqb c x))
          (list_ascii_of_string (PyStr.remove_char x s)) = true.
Proof.
  induction s as [|c s IH]; [reflexivity|]. cbn [PyStr.remove_char].
  destruct (Ascii.eqb c x) eqn:E; [exact IH|]. simpl. now rewrite E, IH.
Qed.

Lemma remove_char_keeps (p : ascii -> bool) (x : ascii) (s : string) :
  forallb p (list_ascii_of_string s) = true ->
  forallb p (list_ascii_of_string (PyStr.remove_char x s)) = true.
Proof.
  induction s as [|c s IH]; [reflexivity|]. simpl.
  intros H. apply andb_true_iff in H as [Hc Hs].
  destruct (Ascii.eqb c x); [now apply IH|]. simpl. now rewrite Hc, (IH Hs).
Qed.

Lemma lstrip_keeps (p : ascii -> bool) (s : string) :
  forallb p (list_ascii_of_string s) = true ->
  forallb p (list_ascii_of_string (PyStr.lstrip s)) = true.
Proof.
  induction s as [|c s IH]; [reflexivity|]. intros H.
  cbn [PyStr.lstrip]. destruct (PyStr.isspace c); [|exact H].
  simpl in H. apply andb_true_iff in H as [_ Hs]. now apply IH.
Qed.

Lemma rstrip_keeps (p : ascii -> bool) (s : string) :
  forallb p (list_ascii_of_string s) = true ->
  forallb p (list_ascii_of_string (PyStr.rstrip s)) = true.
Proof.
  induction s as [|c s IH]; [reflexivity|]. intros H.
  simpl in H. apply andb_true_iff in H as [Hc Hs]. specialize (IH Hs).
  cbn [PyStr.rstrip]. destruct (PyStr.rstrip s) as [|c' r'].
  - destruct (PyStr.isspace c); [reflexivity|]. simpl. now rewrite Hc.
  - change (forallb p (c :: list_ascii_of_string (String c' r')) = true).
    cbn [forallb]. now rewrite Hc, IH.
Qed.

Lemma rstrip_idempotent (s : string) :
  PyStr.rstrip (PyStr.rstrip s) = PyStr.rstrip s.
Proof.
  induction s as [|c s IH]; [reflexivity|]. cbn [PyStr.rstrip].
  destruct (PyStr.rstrip s) as [|c' r'] eqn:E.
  - destruct (PyStr.isspace c) eqn:Hc; [reflexivity|].
    cbn [PyStr.rstrip]. now rewrite Hc.
  - change (PyStr.rstrip (String c (String c' r')) = String c (String c' r')).
    cbn [PyStr.rstrip] in IH |- *.
    destruct (PyStr.rstrip r') as [|c'' r''] eqn:E'.
    + destruct (PyStr.isspace c') eqn:Hc'; [discriminate|].
      injection IH as ->. reflexivity.
    + injection IH as ->. reflexivity.
Qed.

Lemma strip_idempotent (s : string) :
  PyStr.strip (PyStr.strip s) = PyStr.strip s.
Proof.
  unfold PyStr.strip.
  destruct (lstrip_head s) as [E|(c & r & E & Hc)]; rewrite E; [reflexivity|].
  destruct (rstrip_head c r Hc) as [r' Hr]. rewrite Hr.
  cbn [PyStr.lstrip]. rewrite Hc, <- Hr. apply rstrip_idempotent.
Qed.

(** X15.  The column names a table start yields are clean: none contains
    a comma or a double quote, and none has white space at either end
    (stripping it again changes nothing).  So a required column is found
    under its bare name however the dump quoted or spaced it. *)
Theorem column_tokens_are_clean (cols : string) :
  Forall (fun name =>
            forallb (fun c => negb (Ascii.eqb c ","))
                    (list_ascii_of_string name) = true
            /\ forallb (fun c => negb (Ascii.eqb c quote))
                       (list_ascii_of_string name) = true
            /\ PyStr.strip name = name)
         (column_tokens cols).
Proof.
  unfold column_tokens. apply Forall_map.
  eapply List.Forall_impl; [|apply (split_parts_no_sep "," cols)].
  intros p Hp. cbv beta. split; [|split].
  - unfold PyStr.strip. apply rstrip_keeps, lstrip_keeps.
    now apply remove_char_keeps.
  - unfold PyStr.strip. apply rstrip_keeps, lstrip_keeps.
    apply remove_char_absent.
  - apply strip_idempotent.
Qed.

(** ** Exceptions of a row *)

Section RowExceptions.
Context {Payload : Type}.
Variable decoder : PyMateDecoder Payload.
Variable topics : MqttTopics.

(** X14.  No exception raised while a row is handled is caught, whatever
    raises it (a cell, the timestamp, the offset, the packet, or a payload
    decoder that rejects the packet): the run ends at that row with the
    exception, the row has been counted, and the lines after it stay
    unread. *)
Theorem row_exception_aborts
        (line_raw : string) (st : BackupReader) (rest : list string)
        (e : exn) :
  g_read_rows st = true ->
  data_line line_raw = true ->
  value (_extract_column_in decoder topics (PyStr.strip line_raw) st)
  = Raise e ->
  read_compressed_xz decoder topics (line_raw :: rest) st =
  mkRun (Aborted e) rest
        (set_lines_read (g_lines_read st + 1)%Z st)
        (trace (_extract_column_in decoder topics (PyStr.strip line_raw) st)).
Proof.
  intros Hr Hd He. unfold data_line in Hd.
  apply andb_true_iff in Hd as [Ha Hd]. apply negb_true_iff in Hd.
  cbn [read_compressed_xz].
  rewrite (loop_body_reading decoder topics _ _ Hr Ha). cbv zeta.
  rewrite Hd. cbn [value after trace]. rewrite He.
  now rewrite extract_column_in_after.
Qed.

End RowExceptions.

(** ** The further properties on concrete input *)

Lemma non_ascii_line_aborts_witness :
  sample_run [String (ascii_of_N 200) "abc"; dc_start] =
  mkRun (Aborted UnicodeDecodeError) [dc_start] init [].
Proof.
  apply (non_ascii_line_aborts sample_decoder sample_topics). reflexivity.
Defined.

Lemma valid_table_start_resets_reader_witness :
  loop_body sample_decoder sample_topics dc_start init =
  loop_body sample_decoder sample_topics dc_start dc_open_idle.
Proof.
  apply (valid_table_start_resets_reader sample_decoder sample_topics
           dc_start init dc_open_idle); reflexivity.
Defined.

Lemma ignored_lines_leave_no_trace_witness :
  sample_run [nl "SET client_encoding = 'UTF8';"; nl "COPY broken";
              nl ""; nl "x"] =
  mkRun Exhausted [] init [].
Proof.
  apply (ignored_lines_leave_no_trace sample_decoder sample_topics).
  - reflexivity.
  - repeat constructor.
Defined.


Lemma rows_read_is_number_of_lines_witness :
  final (read_compressed_xz sample_decoder sample_topics
           ([dc_row; dc_row] ++ [nl "\."]) dc_open)
  = set_read_rows false (set_lines_read 2 dc_open).
Proof.
  rewrite (rows_read_is_number_of_lines sample_decoder sample_topics
             [dc_row; dc_row] (nl "\.") dc_open).
  - reflexivity.
  - reflexivity.
  - repeat constructor.
  - reflexivity.
  - reflexivity.
Defined.

Lemma cell_exists_iff_enough_tabs_witness :
  getitem (PyStr.split tab (row ["a"; "b"])) (Some 2%nat) = Raise IndexError
  /\ exists cell, getitem (PyStr.split tab (row ["a"; "b"])) (Some 1%nat)
                  = Ok cell.
Proof.
  split.
  - apply (cell_exists_iff_enough_tabs (row ["a"; "b"]) 2). vm_compute. lia.
  - apply (cell_exists_iff_enough_tabs (row ["a"; "b"]) 1). vm_compute. lia.
Defined.

Lemma fromhex_length_witness :
  String.length "00112233" = 2 * length [Byte.x00; Byte.x11; Byte.x22; Byte.x33].
Proof.
  apply (fromhex_length "00112233"); reflexivity.
Defined.


Lemma match_copy_well_formed_witness :
  PyRe.match_copy
    ("COPY " +:+ "dc_status" +:+ " (" +:+ "a, b(c), d" +:+ ")"
     +:+ " FROM stdin;")
  = Some ("dc_status", "a, b(c), d").
Proof.
  apply (match_copy_well_formed "dc_status" "a, b(c), d" " FROM stdin;").
  - discriminate.
  - reflexivity.
  - reflexivity.
  - reflexivity.
Defined.

Lemma timestamp_formats_disjoint_witness :
  PyTime.strptime "2020-01-01 00:00:00.5" PyTime.fmt_seconds = Raise ValueError
  /\ PyTime.strptime "2020-01-01 00:00:00" PyTime.fmt_micro = Raise ValueError.
Proof.
  split.
  - apply (timestamp_formats_disjoint "2020-01-01 00:00:00.5"
             (PyTime.mkDatetime 2020 1 1 0 0 0 500000 None)).
    reflexivity.
  - apply (timestamp_formats_disjoint "2020-01-01 00:00:00"
             (PyTime.mkDatetime 2020 1 1 0 0 0 0 None)).
    reflexivity.
Defined.

Lemma stripped_row_end_cells_witness :
  hd_error (PyStr.split tab (PyStr.strip (nl (row [""; "a"; ""; "b"; ""]))))
  <> Some EmptyString
  /\ last (PyStr.split tab (PyStr.strip (nl (row [""; "a"; ""; "b"; ""]))))
     <> Some EmptyString.
Proof.
  apply (stripped_row_end_cells (nl (row [""; "a"; ""; "b"; ""]))).
  vm_compute. discriminate.
Defined.

Lemma row_exception_aborts_witness :
  read_compressed_xz sample_decoder sample_topics
    [nl (row ["2020-01-01 00:00:00"; "0"; "\\x"]); dc_row] dc_open
  = mkRun (Aborted DecoderError) [dc_row] (set_lines_read 1 dc_open) [].
Proof.
  apply (row_exception_aborts sample_decoder sample_topics
           (nl (row ["2020-01-01 00:00:00"; "0"; "\\x"])) dc_open [dc_row]
           DecoderError); reflexivity.
Defined.

(** ** One call of [load_queue] per row *)

Section QueueOrder.
Context {Payload : Type}.
Variable decoder : PyMateDecoder Payload.
Variable topics : MqttTopics.

Lemma queued_logs_app (a b : list (event Payload)) :
  queued_logs (a ++ b) = queued_logs a ++ queued_logs b.
Proof.
  induction a as [|[r|m t p l] a IH]; cbn; [reflexivity|exact IH|].
  now rewrite IH.
Qed.

Lemma column_in_decoded (table_name : option string) (row_num : Z)
      (t : PyTime.datetime) (raw : PyHex.bytes) (st : BackupReader) :
  decoded_table table_name = true ->
  value (_column_in decoder topics table_name row_num t raw st) = Ok tt ->
  queued_logs (trace (_column_in decoder topics table_name row_num t raw st))
  = [(row_num mod LOG_INTERVAL_QUEUE =? 0)%Z].
Proof.
  unfold decoded_table, _column_in, load_queue, bind, lift, emit, ret.
  destruct (table_is table_name "dc_status").
  { destruct (dc_decoder decoder raw); cbn; [reflexivity|discriminate]. }
  destruct (table_is table_name "mx_status").
  { destruct (mx_decoder decoder raw); cbn; [reflexivity|discriminate]. }
  destruct (table_is table_name "mx_logpage") eqn:E.
  { destruct table_name as [n|]; [|discriminate]. cbn [table_is] in *.
    apply String.eqb_eq in E. subst n. discriminate. }
  destruct (table_is table_name "fx_status"); [|discriminate].
  destruct (fx_decoder decoder raw); cbn; [reflexivity|discriminate].
Qed.

Lemma extract_column_in_decoded (line : string) (st : BackupReader) :
  decoded_table (g_table_name st) = true ->
  value (_extract_column_in decoder topics line st) = Ok tt ->
  queued_logs (trace (_extract_column_in decoder topics line st))
  = [((g_lines_read st + 1) mod LOG_INTERVAL_QUEUE =? 0)%Z].
Proof.
  intros Hd. rewrite (extract_column_in_unfold decoder topics). cbv zeta.
  repeat (match goal with
          | |- context [match ?x with Ok _ => _ | Raise _ => _ end] =>
              destruct x; [|discriminate]
          end).
  destruct (_ =? 0)%Z at 1 2; [destruct (PyTime.printable _)|].
  - cbn [value trace queued_logs]. now apply column_in_decoded.
  - discriminate.
  - now apply column_in_decoded.
Qed.


End QueueOrder.

